(** * Multi-agent task solver: routing, message helpers and table plotting

    A shallow embedding of the Python backend:
    - [Py]            the string built-ins and the regular expressions the
                      code relies on, over code points below 128;
    - [Messages]      LangChain message objects and the graph state;
    - [Helpers]       src/utils/helpers.py;
    - [Visualization] src/tools/visualization.py ([plot_table]);
    - [Search]        src/tools/search.py;
    - [Routing]       src/agents/routing.py;
    - [Nodes]         src/agents/nodes.py;
    - [Graph]         src/agents/graph.py and the loop that drives it;
    - [Fixtures]      concrete collaborators and inputs for the examples;
    - [Statements]    the properties in the words of the specification.

    External collaborators (pandas, the chat model, Tavily, the clock) are
    interfaces ([Class]es); the general theorems hold for every
    implementation of them. The proofs follow in the modules named
    [...Facts]. *)

From Stdlib Require Import String Ascii NArith List Lia Bool.
From stdpp Require Import base gmap strings list.
From Equations Require Import Equations.

Set Warnings "-register-all".
#[local] Open Scope string_scope.

(** ** Python exceptions and fallible results *)

Inductive Exn :=
| ValueError (msg : string)
| IndexError
| KeyError (key : string)
| AttributeError (msg : string).

Inductive result (A : Type) :=
| Ok (a : A)
| Raise (e : Exn).
Arguments Ok {A} a.
Arguments Raise {A} e.

#[global] Instance result_ret : MRet result := fun _ a => Ok a.

#[global] Instance result_bind : MBind result := fun _ _ k r =>
  match r with
  | Ok a => k a
  | Raise e => Raise e
  end.

(** ** Python string built-ins *)

Module Py.

(** [str.isspace] on one code point below 128. *)
Definition isspace (c : ascii) : bool :=
  let n := N_of_ascii c in
  ((9 <=? n) && (n <=? 13) || (28 <=? n) && (n <=? 32))%N.

Definition lower_char (c : ascii) : ascii :=
  let n := N_of_ascii c in
  if ((65 <=? n) && (n <=? 90))%N then ascii_of_N (n + 32) else c.

(** [s.lower()] *)
Fixpoint lower (s : string) : string :=
  match s with
  | EmptyString => EmptyString
  | String c s' => String (lower_char c) (lower s')
  end.

(** [s.startswith(p)] *)
Fixpoint startswith (p s : string) : bool :=
  match p, s with
  | EmptyString, _ => true
  | String a p', String b s' => Ascii.eqb a b && startswith p' s'
  | String _ _, EmptyString => false
  end.

(** [sub in s] *)
Fixpoint contains (sub s : string) : bool :=
  startswith sub s ||
  match s with
  | EmptyString => false
  | String _ s' => contains sub s'
  end.

Fixpoint lstrip_by (p : ascii -> bool) (s : string) : string :=
  match s with
  | EmptyString => EmptyString
  | String c s' => if p c then lstrip_by p s' else s
  end.

Fixpoint rstrip_by (p : ascii -> bool) (s : string) : string :=
  match s with
  | EmptyString => EmptyString
  | String c s' =>
      match rstrip_by p s' with
      | EmptyString => if p c then EmptyString else String c EmptyString
      | r => String c r
      end
  end.

Definition strip_by (p : ascii -> bool) (s : string) : string :=
  rstrip_by p (lstrip_by p s).

(** [s.strip()] *)
Definition strip : string -> string := strip_by isspace.

(** [s.strip(ch)] for a one-character [ch] *)
Definition strip_char (ch : ascii) : string -> string :=
  strip_by (Ascii.eqb ch).

(** Line boundaries of [str.splitlines] below code point 128. *)
Definition is_linebreak (c : ascii) : bool :=
  let n := N_of_ascii c in
  ((10 <=? n) && (n <=? 13) || (28 <=? n) && (n <=? 30))%N.

(** [s.splitlines()]: a carriage return followed by a line feed is one
    boundary; no empty last line is produced. *)
Fixpoint splitlines (s : string) : list string :=
  match s with
  | EmptyString => []
  | String c s' =>
      if is_linebreak c then
        EmptyString ::
          match s' with
          | String d s'' =>
              if Ascii.eqb c "013" && Ascii.eqb d "010"
              then splitlines s'' else splitlines s'
          | EmptyString => []
          end
      else
        match splitlines s' with
        | [] => [String c EmptyString]
        | l :: ls => String c l :: ls
        end
  end.

(** [sep.join(parts)] *)
Fixpoint join (sep : string) (parts : list string) : string :=
  match parts with
  | [] => EmptyString
  | [p] => p
  | p :: ps => p +:+ sep +:+ join sep ps
  end.

(** Truth value of a string. *)
Definition truthy (s : string) : bool :=
  match s with EmptyString => false | _ => true end.

(** Character class [[-\s:]]. *)
Definition sep_class (c : ascii) : bool :=
  Ascii.eqb c "-" || isspace c || Ascii.eqb c ":".

(** [re.match(r'[-\s:]+\|', s)]: the class does not contain the pipe, so
    the longest run followed by a pipe is the only candidate. *)
Definition run_then_pipe (s : string) : bool :=
  match s with
  | String c _ => sep_class c && startswith "|" (lstrip_by sep_class s)
  | EmptyString => false
  end.

(** [re.search(r'\|[-\s:]+\|', s)] as a truth value. *)
Fixpoint search_pipe_rule (s : string) : bool :=
  match s with
  | EmptyString => false
  | String c s' => Ascii.eqb c "|" && run_then_pipe s' || search_pipe_rule s'
  end.

(** [re.match(r'^\s*\|?\s*-{2,}\s*\|?', line)] as a truth value: blanks,
    an optional pipe, blanks, then two dashes; what follows is optional. *)
Definition match_dash_rule (line : string) : bool :=
  let a := lstrip_by isspace line in
  let b := match a with
           | String c r => if Ascii.eqb c "|" then r else a
           | EmptyString => a
           end in
  startswith "--" (lstrip_by isspace b).

(** [re.search(r'date|year|time', s)] as a truth value. *)
Definition search_date_year_time (s : string) : bool :=
  contains "date" s || contains "year" s || contains "time" s.

(** Split on every occurrence of one character ([s.split(ch)]). *)
Fixpoint split_char (ch : ascii) (s : string) : list string :=
  match s with
  | EmptyString => [EmptyString]
  | String c s' =>
      if Ascii.eqb c ch then EmptyString :: split_char ch s'
      else match split_char ch s' with
           | [] => [String c EmptyString]
           | l :: ls => String c l :: ls
           end
  end.

End Py.

(** ** LangChain messages and the graph state *)

Module Messages.

(** An element of a list-valued message content: a string, or another
    object given by its truth value and its [str()]. *)
Inductive Item :=
| ItemStr (s : string)
| ItemObj (truth : bool) (repr : string).

Definition item_truthy (x : Item) : bool :=
  match x with
  | ItemStr s => Py.truthy s
  | ItemObj t _ => t
  end.

Definition item_str (x : Item) : string :=
  match x with
  | ItemStr s => s
  | ItemObj _ r => r
  end.

Inductive Content :=
| CStr (s : string)
| CList (l : list Item).

Record ToolCall := {
  tc_name : string;
  tc_args : gmap string string;
  tc_id : string
}.

(** The message classes the code distinguishes; only [AIMessage] has the
    attribute [tool_calls]. *)
Inductive Message :=
| AIMessage (content : Content) (tool_calls : list ToolCall)
| ToolMessage (tool_call_id : string) (name : string) (content : Content)
| HumanMessage (content : Content)
| SystemMessage (content : Content).

(** [MyGraphState]: a dict; [mode] and [table_text] are read with [.get]
    and may be absent. *)
Record MyGraphState := {
  messages : list Message;
  mode : option string;
  table_text : option string
}.

(** The [add_messages] reducer on messages with fresh ids: append. *)
Definition add_messages (st : MyGraphState) (new : list Message) : MyGraphState :=
  {| messages := messages st ++ new;
     mode := mode st;
     table_text := table_text st |}.

(** What a caller may pass as [messages]: objects, [None], nested lists. *)
Inductive Raw :=
| RNone
| RMsg (m : Message)
| RForeign
| RSeq (l : list Raw).

End Messages.
Import Messages.

(** ** src/utils/helpers.py *)

Module Helpers.

Fixpoint raw_size (r : Raw) : nat :=
  match r with
  | RSeq l => S (list_sum (map raw_size l))
  | _ => 1
  end.

Definition stack_size (stack : list Raw) : nat := list_sum (map raw_size stack).

(** [_flatten_messages]: the objects the generator yields, in order. The
    loop pops the head of [stack]; a list is spliced in front. *)
Equations? flatten_loop (stack : list Raw) : list Raw
  by wf (stack_size stack) lt :=
  flatten_loop [] := [];
  flatten_loop (RNone :: stack) := flatten_loop stack;
  flatten_loop (RSeq l :: stack) := flatten_loop (l ++ stack);
  flatten_loop (m :: stack) := m :: flatten_loop stack.
Proof.
  all: unfold stack_size; simpl; rewrite ?map_app, ?list_sum_app; lia.
Qed.

Definition _flatten_messages (raw_messages : list Raw) : list Raw :=
  flatten_loop raw_messages.

(** The text the loop body computes from [m.content]. *)
Definition content_text (content : Content) : string :=
  match content with
  | CStr s => s
  | CList [] => EmptyString
  | CList l => Py.join " " (map item_str (filter (fun x => item_truthy x = true) l))
  end.

(** One iteration of the [for] loop: the new value of [last_found]. *)
Definition scan_step (last_found : option Message) (m : Raw) : option Message :=
  match m with
  | RMsg (AIMessage content tcs) =>
      if Py.truthy (Py.strip (content_text content))
      then Some (AIMessage content tcs)
      else last_found
  | _ => last_found
  end.

Definition last_nonempty_ai_message (msgs : list Raw) : option Message :=
  fold_left scan_step (_flatten_messages msgs) None.

End Helpers.

(** ** src/tools/visualization.py *)

Module Visualization.

(** *** pandas, as far as [plot_table] uses it *)

Inductive Dtype := int64 | float64 | bool_ | object_ | datetime64.

(** A column: its name, the dtype pandas inferred and the cells as read. *)
Record Series := {
  series_name : string;
  dtype : Dtype;
  cells : list string
}.

(** The columns of a frame in declared order. *)
Definition DataFrame := list Series.

(** [pd.api.types.is_numeric_dtype] *)
Definition is_numeric_dtype (s : Series) : bool :=
  match dtype s with
  | int64 | float64 | bool_ => true
  | object_ | datetime64 => false
  end.

Inductive Sep := comma | whitespace_runs.

(** The pandas entry points; [None] stands for a raised exception. *)
Class Pandas := {
  read_csv : Sep -> string -> option DataFrame;
  to_numeric_coerce : Series -> option Series;
  to_datetime_ignore : Series -> option Series
}.

(** [datetime.utcnow().strftime(...)], [uuid4().hex] and [os.sep]. *)
Class Runtime := {
  utcnow_stamp : string;
  uuid4_hex : string;
  os_sep : string
}.

(** *** settings *)

Definition PLOT_OUTPUT_DIR : string := "outputs".

(** *** the drawn figure and the saved file *)

Record Figure := {
  fig_kind : string;
  fig_x : Series;
  fig_y : Series;
  fig_title : string;
  fig_xlabel : string;
  fig_ylabel : string
}.

Record Saved := {
  out_path : string;
  saved_figure : Figure
}.

(** The table as [plot_table] has it before drawing: the frame and the
    two chosen columns (lines 30-97). *)
Record ParsedTable := {
  frame : DataFrame;
  x_col : string;
  y_col : string
}.

Definition nl : string := String "010" EmptyString.

Definition columns (df : DataFrame) : list string := map series_name df.

(** [df[c]] *)
Definition get_series (df : DataFrame) (c : string) : result Series :=
  match find (fun s => String.eqb (series_name s) c) df with
  | Some s => Ok s
  | None => Raise (KeyError c)
  end.

(** [df[c] = s] for an existing column [c] *)
Definition set_series (df : DataFrame) (c : string) (s : Series) : DataFrame :=
  map (fun old => if String.eqb (series_name old) c
                  then {| series_name := c; dtype := dtype s; cells := cells s |}
                  else old) df.

Definition empty_msg : string := "plot_table: table_text is empty".
Definition unparseable_msg : string :=
  "plot_table: Unable to parse table_text into a DataFrame. " +:+
  "Provide CSV or markdown table with header row.".
Definition no_numeric_msg : string :=
  "plot_table: No numeric column found to plot. " +:+
  "Provide at least one numeric column.".
Definition unsupported_msg (chart_type : string) : string :=
  "plot_table: Unsupported chart_type: " +:+ chart_type.

(** Lines 40-45: drop the separator lines, strip blanks and outer pipes,
    join with line feeds. *)
Definition markdown_to_csv (txt : string) : string :=
  Py.join nl
    (map (fun line => Py.strip_char "|" (Py.strip line))
         (filter (fun line => Py.match_dash_rule line = false)
                 (Py.splitlines txt))).

(** The test of line 69 on one column name. *)
Definition is_time_name (c : string) : bool :=
  let l := Py.lower c in
  (String.eqb l "date" || String.eqb l "year" || String.eqb l "time")
  || Py.search_date_year_time l.

(** Lines 67-73. *)
Definition choose_x (df : DataFrame) : result string :=
  match find (fun c => is_time_name c) (columns df) with
  | Some c => Ok c
  | None =>
      match columns df with
      | c :: _ => Ok c
      | [] => Raise IndexError
      end
  end.

(** Line 75. *)
Definition numeric_cols (df : DataFrame) (x : string) : list string :=
  columns
    (filter (fun s => is_numeric_dtype s && negb (String.eqb (series_name s) x) = true)
            df).

(** Line 76. *)
Definition first_y (df : DataFrame) (x : string) : option string :=
  match numeric_cols df x with
  | c :: _ => Some c
  | [] => if (1 <? length (columns df))%nat then columns df !! 1%nat else None
  end.

(** [df[x_col].astype(str)] *)
Definition astype_str (s : Series) : Series :=
  {| series_name := series_name s; dtype := object_; cells := cells s |}.

Section PlotTable.
Context `{Pandas} `{Runtime}.

(** Lines 34-58: the three attempts. An exception inside the first [try]
    leaves [df] at [None] and the whitespace attempt runs. *)
Definition read_frame (txt : string) : option DataFrame :=
  let df :=
    if Py.contains "|" txt && Py.search_pipe_rule txt
    then read_csv comma (markdown_to_csv txt)
    else if Py.contains nl txt && Py.contains "," txt
    then read_csv comma txt
    else None in
  match df with
  | Some d => Some d
  | None => read_csv whitespace_runs txt
  end.

(** Lines 78-85: the conversion of the second column, tried when line 76
    left [y_col] at [None]. *)
Definition coerce_second (df : DataFrame) : DataFrame * option string :=
  if (2 <=? length (columns df))%nat then
    match columns df !! 1%nat with
    | Some c =>
        match get_series df c with
        | Ok s =>
            match to_numeric_coerce s with
            | Some s' => (set_series df c s', Some c)
            | None => (df, None)
            end
        | Raise _ => (df, None)
        end
    | None => (df, None)
    end
  else (df, None).

(** Lines 75-91. *)
Definition choose_y (df : DataFrame) (x : string) : result (DataFrame * string) :=
  let '(df1, y) :=
    match first_y df x with
    | Some y => (df, Some y)
    | None => coerce_second df
    end in
  match y with
  | Some y => Ok (df1, y)
  | None => Raise (ValueError no_numeric_msg)
  end.

(** Lines 93-97. *)
Definition parse_dates (df : DataFrame) (x : string) : DataFrame :=
  match get_series df x with
  | Ok s =>
      match to_datetime_ignore s with
      | Some s' => set_series df x s'
      | None => df
      end
  | Raise _ => df
  end.

Definition file_name : string :=
  "plot_" +:+ utcnow_stamp +:+ "_" +:+ String.substring 0 6 uuid4_hex +:+ ".png".

(** Lines 101-108: the two series handed to matplotlib; the chart type is
    tested before any column is read. *)
Definition draw (t : ParsedTable) (chart_type : string) : result (Series * Series) :=
  if String.eqb chart_type "line" then
    x ← get_series (frame t) (x_col t);
    y ← get_series (frame t) (y_col t);
    Ok (x, y)
  else if String.eqb chart_type "bar" then
    x ← get_series (frame t) (x_col t);
    y ← get_series (frame t) (y_col t);
    Ok (astype_str x, y)
  else if String.eqb chart_type "scatter" then
    x ← get_series (frame t) (x_col t);
    y ← get_series (frame t) (y_col t);
    Ok (x, y)
  else Raise (ValueError (unsupported_msg chart_type)).

(** Lines 99-123. *)
Definition render (t : ParsedTable) (chart_type : string) : result Saved :=
  '(x, y) ← draw t chart_type;
  Ok {| out_path := PLOT_OUTPUT_DIR +:+ os_sep +:+ file_name;
        saved_figure :=
          {| fig_kind := chart_type;
             fig_x := x;
             fig_y := y;
             fig_title := y_col t +:+ " vs " +:+ x_col t;
             fig_xlabel := x_col t;
             fig_ylabel := y_col t |} |}.

(** Lines 30-97. *)
Definition parse (table_text : string) : result ParsedTable :=
  let txt := Py.strip table_text in
  if negb (Py.truthy txt) then Raise (ValueError empty_msg)
  else
    match read_frame txt with
    | None => Raise (ValueError unparseable_msg)
    | Some df =>
        x ← choose_x df;
        '(df1, y) ← choose_y df x;
        Ok {| frame := parse_dates df1 x; x_col := x; y_col := y |}
    end.

Definition plot_table (table_text chart_type : string) : result Saved :=
  t ← parse table_text;
  render t chart_type.

End PlotTable.

End Visualization.

(** ** src/tools/search.py *)

Module Search.

Definition TAVILY_MAX_RESULTS : nat := 2.

(** [TavilySearch(max_results=n).invoke({"query": q})["results"]]: for each
    result its ["content"] entry, when present. *)
Class Tavily := {
  tavily_results : nat -> string -> list (option string)
}.

Definition web_search `{Tavily} (user_input : string) : string :=
  let chunks :=
    omap (fun r => match r with
                   | Some c => if Py.truthy c then Some c else None
                   | None => None
                   end)
         (tavily_results TAVILY_MAX_RESULTS user_input) in
  let joined := Py.join (Visualization.nl +:+ Visualization.nl) chunks in
  if Py.truthy joined then joined else "No results found.".

End Search.

(** ** src/agents/routing.py *)

Module Routing.

(** [langgraph.graph.START] and [END] *)
Definition START : string := "__start__".
Definition END : string := "__end__".

(** [hasattr(last, "tool_calls") and last.tool_calls] as a truth value. *)
Definition requests_tool (m : Message) : bool :=
  match m with
  | AIMessage _ (_ :: _) => true
  | _ => false
  end.

(** [state["messages"][-1]] *)
Definition last_message (state : MyGraphState) : result Message :=
  match last (messages state) with
  | Some m => Ok m
  | None => Raise IndexError
  end.

(** [state.get("mode", "full")] *)
Definition get_mode (state : MyGraphState) : string :=
  default "full" (mode state).

Definition route_from_researcher (state : MyGraphState) : result string :=
  let mode := get_mode state in
  last ← last_message state;
  if requests_tool last then Ok "tools"
  else if String.eqb mode "research" then Ok END
  else Ok "summarizer_agent".

Definition route_from_summarizer (state : MyGraphState) : result string :=
  let mode := get_mode state in
  last ← last_message state;
  if requests_tool last then Ok "tools"
  else if String.eqb mode "summary" then Ok END
  else Ok "visualizer_agent".

Definition route_from_visualizer (state : MyGraphState) : result string :=
  last ← last_message state;
  if requests_tool last then Ok "tools"
  else Ok END.

End Routing.

(** ** src/agents/nodes.py *)

Module Nodes.
Import Visualization Search.

(** The four chains [prompt | llm]. Every prompt has the single
    placeholder [messages], so a chain sees the message list only. *)
Inductive Runnable :=
| planner_runnable
| researcher_runnable
| summarizer_runnable
| visualizer_runnable.

(** The chat model: content and tool calls of the returned [AIMessage]. *)
Class ChatModel := {
  invoke_runnable : Runnable -> list Message -> Content * list ToolCall
}.

(** [str(uuid4())] for the id of the tool message of the auto-plot. *)
Class Uuid := { uuid4_str : string }.

(** The text [ToolNode] answers with when it does not run a call: the
    call names none of its tools, or the tool's argument schema refuses
    the arguments. The wording is LangGraph's and pydantic's. *)
Class ToolNodeTexts := { refused_call_text : ToolCall -> string }.

(** [str(e)] *)
Definition exn_str (e : Exn) : string :=
  match e with
  | ValueError msg => msg
  | IndexError => "list index out of range"
  | KeyError key => "'" +:+ key +:+ "'"
  | AttributeError msg => msg
  end.

(** Lines 86-91: the chart type read off the model's answer.
    [(ai.content or "").lower()] exists for a string and for the empty
    list only. *)
Definition chart_type_of_content (content : Content) : result string :=
  content_lower ←
    match content with
    | CStr s => Ok (Py.lower s)
    | CList [] => Ok (Py.lower EmptyString)
    | CList (_ :: _) => Raise (AttributeError "'list' object has no attribute 'lower'")
    end;
  Ok (if Py.contains "bar chart" content_lower
         || (Py.contains "bar" content_lower && negb (Py.contains "line" content_lower))
      then "bar"
      else if Py.contains "scatter" content_lower then "scatter"
      else "line").

Section Agents.
Context `{ChatModel} `{Pandas} `{Runtime} `{Uuid} `{Tavily} `{ToolNodeTexts}.

Definition ai_message (r : Runnable) (state : MyGraphState) : Message :=
  let '(content, tool_calls) := invoke_runnable r (messages state) in
  AIMessage content tool_calls.

Definition planner_agent (state : MyGraphState) : list Message :=
  [ai_message planner_runnable state].

Definition researcher_agent (state : MyGraphState) : list Message :=
  [ai_message researcher_runnable state].

Definition summarizer_agent (state : MyGraphState) : list Message :=
  [ai_message summarizer_runnable state].

(** Lines 85-105: the [try] block and its handler; the messages appended
    after [ai]. *)
Definition auto_plot (content : Content) (table_text : string) : list Message :=
  match (chart_type ← chart_type_of_content content;
         saved ← plot_table table_text chart_type;
         Ok (chart_type, out_path saved)) with
  | Ok (chart_type, file_path) =>
      [ToolMessage uuid4_str "plot_table" (CStr file_path);
       AIMessage
         (CStr ("Automatically plotted table as a " +:+ chart_type +:+
                " chart. File saved at: " +:+ file_path)) []]
  | Raise e =>
      [AIMessage (CStr ("Failed to auto-plot the table: " +:+ exn_str e)) []]
  end.

Definition visualizer_agent (state : MyGraphState) : list Message :=
  let '(content, tool_calls) := invoke_runnable visualizer_runnable (messages state) in
  let ai := AIMessage content tool_calls in
  match tool_calls with
  | _ :: _ => [ai]
  | [] =>
      match table_text state with
      | Some t => if Py.truthy t then ai :: auto_plot content t else [ai]
      | None => [ai]
      end
  end.

(** One tool call run by [ToolNode([web_search, plot_table])]. The tool
    is found by name and run on the arguments; what it returns becomes
    the content of a tool message that answers the call. An error raised
    by the body of the tool is raised again by the node. A call that
    names no tool of the node, or that lacks a required argument, is not
    run: it is answered by a tool message with the library's text.
    [chart_type] has the default "line". *)
Definition run_tool_call (call : ToolCall) : result Message :=
  let answer (output : string) : Message :=
    ToolMessage (tc_id call) (tc_name call) (CStr output) in
  if String.eqb (tc_name call) "web_search" then
    match tc_args call !! "user_input" with
    | Some q => Ok (answer (web_search q))
    | None => Ok (answer (refused_call_text call))
    end
  else if String.eqb (tc_name call) "plot_table" then
    match tc_args call !! "table_text" with
    | Some t =>
        saved ← plot_table t (default "line" (tc_args call !! "chart_type"));
        Ok (answer (out_path saved))
    | None => Ok (answer (refused_call_text call))
    end
  else Ok (answer (refused_call_text call)).

(** The calls of one message, answered in order; the first error
    raised by a tool ends the node. *)
Fixpoint run_tool_calls (calls : list ToolCall) : result (list Message) :=
  match calls with
  | [] => Ok []
  | call :: calls' =>
      m ← run_tool_call call;
      ms ← run_tool_calls calls';
      Ok (m :: ms)
  end.

(** [tools_node]: runs the tool calls of the last message, which must be
    an [AIMessage]. *)
Definition tools_node (state : MyGraphState) : result (list Message) :=
  match last (messages state) with
  | Some (AIMessage _ calls) => run_tool_calls calls
  | _ => Raise (ValueError "Last message is not an AIMessage")
  end.

End Agents.

End Nodes.

(** ** src/agents/graph.py *)

Module Graph.
Import Visualization Search Routing Nodes.

(** *** [StateGraph], as far as [create_graph] uses it *)

Abbreviation NodeFn := (MyGraphState -> result (list Message)).
Abbreviation Router := (MyGraphState -> result string).

(** Every node of this graph has one outgoing edge or one conditional
    edge, so a map from the source node is enough for both. *)
Record StateGraph := {
  nodes : gmap string NodeFn;
  edges : gmap string string;
  branches : gmap string (Router * gmap string string)
}.

Definition new_graph : StateGraph :=
  {| nodes := ∅; edges := ∅; branches := ∅ |}.

Definition add_node (name : string) (f : NodeFn) (g : StateGraph) : StateGraph :=
  {| nodes := <[name := f]> (nodes g); edges := edges g; branches := branches g |}.

Definition add_edge (src dst : string) (g : StateGraph) : StateGraph :=
  {| nodes := nodes g; edges := <[src := dst]> (edges g); branches := branches g |}.

Definition add_conditional_edges (src : string) (path : Router)
    (path_map : gmap string string) (g : StateGraph) : StateGraph :=
  {| nodes := nodes g; edges := edges g;
     branches := <[src := (path, path_map)]> (branches g) |}.

Section CreateGraph.
Context `{ChatModel} `{Pandas} `{Runtime} `{Uuid} `{Tavily} `{ToolNodeTexts}.

Definition create_graph : StateGraph :=
  let workflow := new_graph in
  let workflow := add_node "planner_agent" (fun s => Ok (planner_agent s)) workflow in
  let workflow := add_node "researcher_agent" (fun s => Ok (researcher_agent s)) workflow in
  let workflow := add_node "summarizer_agent" (fun s => Ok (summarizer_agent s)) workflow in
  let workflow := add_node "visualizer_agent" (fun s => Ok (visualizer_agent s)) workflow in
  let workflow := add_node "tools" tools_node workflow in
  let workflow := add_edge START "planner_agent" workflow in
  let workflow := add_edge "planner_agent" "researcher_agent" workflow in
  let workflow :=
    add_conditional_edges "researcher_agent" route_from_researcher
      (<["tools" := "tools"]>
         (<["summarizer_agent" := "summarizer_agent"]>
            (<[END := END]> ∅))) workflow in
  let workflow :=
    add_conditional_edges "tools" (fun _ => Ok "researcher_agent")
      (<["researcher_agent" := "researcher_agent"]> ∅) workflow in
  let workflow :=
    add_conditional_edges "summarizer_agent" route_from_summarizer
      (<["visualizer_agent" := "visualizer_agent"]>
         (<[END := END]> ∅)) workflow in
  let workflow :=
    add_conditional_edges "visualizer_agent" route_from_visualizer
      (<[END := END]> ∅) workflow in
  workflow.

End CreateGraph.

(** *** Running a compiled graph *)

(** The node that runs after [node], given the state [node] left behind.
    A conditional edge looks the router's label up in its path map; a label
    the map does not hold is a [KeyError]. *)
Definition next_node (g : StateGraph) (node : string) (state : MyGraphState)
    : result string :=
  match edges g !! node with
  | Some dst => Ok dst
  | None =>
      match branches g !! node with
      | Some (path, path_map) =>
          label ← path state;
          match path_map !! label with
          | Some dst => Ok dst
          | None => Raise (KeyError label)
          end
      | None => Ok END
      end
  end.

Inductive Status :=
| Finished
| Failed (e : Exn)
| RecursionLimit.

(** The outcome of [app.invoke]. [status]: whether it returned, raised or
    ran into the recursion limit. [log]: the nodes that were run, in
    order, each with the messages it added to the state; a node that
    raised, or whose router or path map raised, added none, as the
    writes of a failed step are not applied. [final]: the state the run
    returned; when the run did not return, the state as the last
    completed step left it, which the program hands to nobody. *)
Record Run := {
  status : Status;
  final : MyGraphState;
  log : list (string * list Message)
}.

Definition stop (s : Status) (state : MyGraphState) : Run :=
  {| status := s; final := state; log := [] |}.

Definition logged (node : string) (new : list Message) (r : Run) : Run :=
  {| status := status r; final := final r; log := (node, new) :: log r |}.

(** One node per step. The router of a conditional edge reads the state
    with the node's messages added; when the node, the router or the
    look-up in the path map raises, the step fails and the state stays
    as it was. [budget] is the number of steps the run may take. *)
Fixpoint run_from (g : StateGraph) (budget : nat) (node : string)
    (state : MyGraphState) : Run :=
  if String.eqb node END then stop Finished state
  else
    match budget with
    | O => stop RecursionLimit state
    | S budget' =>
        match nodes g !! node with
        | None => stop (Failed (KeyError node)) state
        | Some f =>
            match f state with
            | Raise e => logged node [] (stop (Failed e) state)
            | Ok new =>
                let state' := add_messages state new in
                match next_node g node state' with
                | Raise e => logged node [] (stop (Failed e) state)
                | Ok dst => logged node new (run_from g budget' dst state')
                end
            end
        end
    end.

(** [app.invoke(input)] for a run that may take [max_steps] steps. In
    LangGraph this is the recursion limit less one: a run of n steps
    needs [recursion_limit] n + 1. main.py and examples.py pass no
    limit, so theirs is the default 25 and [max_steps] is 24. *)
Definition invoke (g : StateGraph) (max_steps : nat) (input : MyGraphState) : Run :=
  match edges g !! START with
  | Some entry => run_from g max_steps entry input
  | None => stop (Failed (KeyError START)) input
  end.

(** The nodes that ran, in order. *)
Definition steps (r : Run) : list string := map fst (log r).

End Graph.

(** ** Concrete collaborators for evaluating the code on examples *)

Module Fixtures.
Import Visualization Search Routing Nodes Graph.

(** *** A reader for plain tables

    [plain_read_csv] stands for [pd.read_csv] on plain tables, the
    tables of [plain_table] below, and on those only: lines separated by
    line breaks, the first one the header, fields separated by commas
    (or by runs of blanks), no row longer than the header, and every
    field empty, an integer literal of at most 18 digits, or a word that
    pandas reads as text. There a column of integer literals is [int64],
    one of integer literals and empty fields is [float64], any other is
    [object], and a short row is padded with empty fields. Outside the
    plain tables (decimal literals, integers beyond 64 bits, rows longer
    than the header, quotes, blanks around a field, the words pandas
    reads as missing values, truth values or infinities, repeated or
    empty column names) pandas answers differently and this reader is
    not used. *)

Definition is_digit (c : ascii) : bool :=
  let n := N_of_ascii c in ((48 <=? n) && (n <=? 57))%N.

Fixpoint all_digits (s : string) : bool :=
  match s with
  | EmptyString => true
  | String c s' => is_digit c && all_digits s'
  end.

Definition is_int_literal (s : string) : bool :=
  match s with
  | EmptyString => false
  | String c r =>
      if Ascii.eqb c "-" || Ascii.eqb c "+"
      then Py.truthy r && all_digits r
      else all_digits s
  end.

Definition infer_dtype (col : list string) : Dtype :=
  match col with
  | [] => object_
  | _ =>
      if forallb is_int_literal col then int64
      else if forallb (fun c => is_int_literal c || negb (Py.truthy c)) col then float64
      else object_
  end.

Definition fields (sep : Sep) (line : string) : list string :=
  match sep with
  | comma => Py.split_char "," line
  | whitespace_runs => String.words line
  end.

(** The words [pd.read_csv] does not keep as text, in lower case. *)
Definition reserved_words : list string :=
  ["#n/a"; "#n/a n/a"; "#na"; "-1.#ind"; "-1.#qnan"; "-nan"; "1.#ind";
   "1.#qnan"; "<na>"; "n/a"; "na"; "null"; "nan"; "none"; "true"; "false";
   "inf"; "-inf"; "+inf"; "infinity"; "-infinity"; "+infinity"].

Definition number_char (c : ascii) : bool :=
  is_digit c || existsb (Ascii.eqb c) ["+"; "-"; "."; "e"; "E"]%char.

Definition text_word (s : string) : bool :=
  let chars := list_ascii_of_string s in
  existsb (fun c => negb (number_char c)) chars
  && forallb (fun c => negb (Py.isspace c) && negb (Ascii.eqb c (ascii_of_nat 34))) chars
  && negb (existsb (String.eqb (Py.lower s)) reserved_words).

Definition small_int_literal (s : string) : bool :=
  is_int_literal s && (String.length s <=? 18)%nat.

Definition plain_cell (s : string) : bool :=
  negb (Py.truthy s) || small_int_literal s || text_word s.

Definition plain_table (sep : Sep) (txt : string) : bool :=
  match filter (fun l => Py.truthy l = true) (Py.splitlines txt) with
  | [] => false
  | header :: rows =>
      let names := fields sep header in
      forallb (fun l => String.eqb (Py.strip l) l) (header :: rows)
      && forallb text_word names
      && bool_decide (NoDup names)
      && forallb (fun r => (length r <=? length names)%nat
                           && forallb plain_cell r)
                 (map (fields sep) rows)
  end.

Definition plain_read_csv (sep : Sep) (txt : string) : option DataFrame :=
  match filter (fun l => Py.truthy l = true) (Py.splitlines txt) with
  | [] => None
  | header :: rows =>
      let names := fields sep header in
      let data := map (fields sep) rows in
      if forallb (fun r => (length r <=? length names)%nat) data then
        Some (imap (fun i name =>
                      let col := map (fun r => nth i r EmptyString) data in
                      {| series_name := name; dtype := infer_dtype col; cells := col |})
                   names)
      else None
  end.

(** [errors='coerce'] turns what is not a number into NaN: the result is
    a float column. [errors='ignore'] hands a column that is not made of
    dates back as it is. *)
#[local] Instance plain_pandas : Pandas := {|
  read_csv := plain_read_csv;
  to_numeric_coerce := fun s =>
    Some {| series_name := series_name s; dtype := float64; cells := cells s |};
  to_datetime_ignore := fun s => Some s
|}.

#[local] Instance fixed_runtime : Runtime := {|
  utcnow_stamp := "20240101120000";
  uuid4_hex := "0123456789abcdef0123456789abcdef";
  os_sep := "/"
|}.

#[local] Instance fixed_uuid : Uuid := {|
  uuid4_str := "01234567-89ab-cdef-0123-456789abcdef"
|}.

#[local] Instance no_results : Tavily := {|
  tavily_results := fun _ _ => []
|}.

#[local] Instance short_texts : ToolNodeTexts := {|
  refused_call_text := fun call => "Error: " +:+ tc_name call +:+ " was not run."
|}.

(** *** Chat models *)

(** Never asks for a tool. *)
Definition quiet_chat : ChatModel := {|
  invoke_runnable := fun _ _ => (CStr "noted", [])
|}.

Definition search_call : ToolCall := {|
  tc_name := "web_search";
  tc_args := {[ "user_input" := "EV adoption Pakistan 2023 statistics" ]};
  tc_id := "call_1"
|}.

(** The researcher searches once, then answers from the tool result. *)
Definition searching_chat : ChatModel := {|
  invoke_runnable := fun r msgs =>
    match r with
    | researcher_runnable =>
        match last msgs with
        | Some (ToolMessage _ _ _) => (CStr "findings", [])
        | _ => (CStr "", [search_call])
        end
    | _ => (CStr "noted", [])
    end
|}.

(** The summarizer asks for a search. *)
Definition summarizer_tool_chat : ChatModel := {|
  invoke_runnable := fun r _ =>
    match r with
    | summarizer_runnable => (CStr "", [search_call])
    | _ => (CStr "noted", [])
    end
|}.

(** The visualizer proposes a bar chart in words, without a tool call. *)
Definition bar_chart_chat : ChatModel := {|
  invoke_runnable := fun r _ =>
    match r with
    | visualizer_runnable => (CStr "A Bar Chart of revenue per year fits best.", [])
    | _ => (CStr "noted", [])
    end
|}.

Definition graph_with (chat : ChatModel) : StateGraph :=
  @create_graph chat plain_pandas fixed_runtime fixed_uuid no_results short_texts.

(** *** Inputs *)

Definition csv_table : string :=
  "year,revenue" +:+ nl +:+ "2020,100" +:+ nl +:+ "2021,200".

Definition markdown_table : string :=
  "|year|revenue|" +:+ nl +:+ "|---|---|" +:+ nl +:+
  "|2020|100|" +:+ nl +:+ "|2021|200|".

Definition names_cities : string :=
  "name,city" +:+ nl +:+ "Alice,Paris" +:+ nl +:+ "Bob,Rome".

Definition names_years : string :=
  "name,year" +:+ nl +:+ "Alice,2020" +:+ nl +:+ "Bob,2021".

Definition question : Message :=
  HumanMessage (CStr "Find 2 recent stats on EV adoption in Pakistan and summarize.").

Definition input (m : option string) (t : option string) : MyGraphState :=
  {| messages := [question]; mode := m; table_text := t |}.

(** A state whose last message asks for a tool, and one that differs from
    it in everything the routers do not read. *)
Definition asking_state (m : option string) : MyGraphState :=
  {| messages := [question; AIMessage (CStr "") [search_call]];
     mode := m; table_text := None |}.

Definition other_asking_state (m : option string) : MyGraphState :=
  {| messages := [AIMessage (CStr "let me look that up") [search_call; search_call]];
     mode := m; table_text := Some csv_table |}.

End Fixtures.

(** ** The properties, as the specification words them *)

Module Statements.
Import Visualization Routing Nodes Graph.

(** *** The last non-empty assistant message *)

(** The messages of a possibly nested sequence, in order. *)
Fixpoint leaves (r : Raw) : list Raw :=
  match r with
  | RNone => []
  | RSeq l => flat_map leaves l
  | m => [m]
  end.

(** A text is non-blank when some character of it is not a blank. *)
Fixpoint nonblank (s : string) : bool :=
  match s with
  | EmptyString => false
  | String c s' => negb (Py.isspace c) || nonblank s'
  end.

(** List-valued content joined with spaces, every part included. *)
Definition joined_text (content : Content) : string :=
  match content with
  | CStr s => s
  | CList l => Py.join " " (map item_str l)
  end.

(** List-valued content joined with spaces, the parts that are falsy
    (an empty string, an empty dict, ...) left out. *)
Definition truthy_parts (l : list Item) : list Item :=
  filter (fun x => item_truthy x = true) l.

Definition joined_truthy_text (content : Content) : string :=
  match content with
  | CStr s => s
  | CList l => Py.join " " (map item_str (truthy_parts l))
  end.

(** An assistant message whose text, read by [text], is non-blank;
    nothing for a human or a tool-result message. *)
Definition nonblank_assistant_by (text : Content -> string) (r : Raw)
    : option Message :=
  match r with
  | RMsg (AIMessage content tcs) =>
      if nonblank (text content) then Some (AIMessage content tcs) else None
  | _ => None
  end.

Definition most_recent_by (text : Content -> string) (msgs : list Raw)
    : option Message :=
  last (omap (nonblank_assistant_by text) (flat_map leaves msgs)).

(** Whether a part that is falsy prints blank: so it is for a string,
    not for an empty dict, which prints as two braces. *)
Definition prints_blank_when_falsy (x : Item) : Prop :=
  item_truthy x = false -> nonblank (item_str x) = false.

(** The rule with every part joined. *)
Definition nonblank_assistant : Raw -> option Message :=
  nonblank_assistant_by joined_text.

Definition most_recent_nonblank_assistant : list Raw -> option Message :=
  most_recent_by joined_text.

(** The rule with the truthy parts joined. *)
Definition nonblank_truthy_assistant : Raw -> option Message :=
  nonblank_assistant_by joined_truthy_text.

Definition most_recent_nonblank_truthy_assistant : list Raw -> option Message :=
  most_recent_by joined_truthy_text.

(** *** The chart kind of the auto-plot, as the specification has it *)

Definition spec_chart_kind (text_lower : string) : string :=
  if Py.contains "bar chart" text_lower || Py.contains "bar" text_lower then "bar"
  else if Py.contains "scatter" text_lower then "scatter"
  else "line".

(** *** The tool step hands control back to the requesting step *)

Definition tool_returns_to_requester (g : StateGraph) (requester : string) : Prop :=
  forall state m,
    last_message state = Ok m -> requests_tool m = true ->
    next_node g requester state = Ok "tools" /\
    forall state', next_node g "tools" state' = Ok requester.

(** *** What the routers read *)

Definition last_requests_tool (state : MyGraphState) : option bool :=
  requests_tool <$> last (messages state).

(** *** Messages by author *)

Definition authored_by (node : string) (r : Run) : list Message :=
  concat (map snd (filter (fun e => fst e = node) (log r))).

Definition supported_chart_type (chart_type : string) : bool :=
  String.eqb chart_type "line" || String.eqb chart_type "bar"
  || String.eqb chart_type "scatter".

Definition set_mode (m : option string) (state : MyGraphState) : MyGraphState :=
  {| messages := messages state; mode := m; table_text := table_text state |}.

(** *** The transitions of the pipeline *)

(** The pairs (step, next step) the graph of [create_graph] allows. *)
Definition graph_edge (a b : string) : Prop :=
  (a = "planner_agent" /\ b = "researcher_agent") \/
  (a = "researcher_agent" /\ (b = "tools" \/ b = "summarizer_agent")) \/
  (a = "tools" /\ b = "researcher_agent") \/
  (a = "summarizer_agent" /\ b = "visualizer_agent").

(** A sequence of steps in which each one is followed by an allowed one. *)
Inductive walk (R : string -> string -> Prop) : list string -> Prop :=
| walk_nil : walk R []
| walk_one a : walk R [a]
| walk_cons a b l : R a b -> walk R (b :: l) -> walk R (a :: b :: l).

(** What the run loop cannot tell apart: two states with the same
    messages, the same table_text and the same effective mode. *)
Definition same_view (s1 s2 : MyGraphState) : Prop :=
  messages s1 = messages s2 /\ table_text s1 = table_text s2 /\
  get_mode s1 = get_mode s2.

(** The chart kind of the auto-plot, as the code has it. *)
Definition guarded_chart_kind (text_lower : string) : string :=
  if Py.contains "bar chart" text_lower
     || (Py.contains "bar" text_lower && negb (Py.contains "line" text_lower))
  then "bar"
  else if Py.contains "scatter" text_lower then "scatter"
  else "line".

End Statements.

(** ** src/config/settings.py *)

Module Config.

(** The three keys, each read with [os.getenv(name, "")]. *)
Record Settings := {
  GOOGLE_API_KEY : string;
  TAVILY_API_KEY : string;
  ANTHROPIC_API_KEY : string
}.

(** The list [missing] that [validate] builds. *)
Definition missing_variables (s : Settings) : list string :=
  let missing := [] in
  let missing := if Py.truthy (GOOGLE_API_KEY s) then missing
                 else (missing ++ ["GOOGLE_API_KEY"])%list in
  let missing := if Py.truthy (TAVILY_API_KEY s) then missing
                 else (missing ++ ["TAVILY_API_KEY"])%list in
  let missing := if Py.truthy (ANTHROPIC_API_KEY s) then missing
                 else (missing ++ ["ANTHROPIC_API_KEY"])%list in
  missing.

(** [Settings.validate]: the lines it prints and the value it returns. *)
Definition validate (s : Settings) : list string * bool :=
  let missing := missing_variables s in
  let printed :=
    match missing with
    | [] => []
    | _ :: _ => ["WARNING: Missing environment variables: " +:+ Py.join ", " missing]
    end in
  (printed, Nat.eqb (length missing) 0).

End Config.

(** ** main.py and examples.py: what is reported of a finished run *)

Module Main.
Import Helpers.

(** [final.content if final else "(no non-empty AI message)"], where
    [final = last_nonempty_ai_message(out["messages"])]. *)
Definition final_output (out : MyGraphState) : Content :=
  match last_nonempty_ai_message (map RMsg (messages out)) with
  | Some (AIMessage content _) => content
  | Some (ToolMessage _ _ content) => content
  | Some (HumanMessage content) => content
  | Some (SystemMessage content) => content
  | None => CStr "(no non-empty AI message)"
  end.

(** The loop over [out["messages"]] that reports the plots: the contents
    of the tool messages named [plot_table], in order. *)
Definition plots_produced (out : MyGraphState) : list Content :=
  omap (fun m => match m with
                 | ToolMessage _ name content =>
                     if String.eqb name "plot_table" then Some content else None
                 | _ => None
                 end)
       (messages out).

End Main.

(** ** Further fixtures and notions used by the additional properties *)

Module MoreFixtures.
Import Visualization Search Routing Nodes Graph Fixtures Config.

Definition single_numeric_column : string :=
  "value" +:+ nl +:+ "1" +:+ nl +:+ "2".

Definition padded_csv_table : string :=
  "  " +:+ csv_table +:+ nl +:+ nl.

Definition blank_text : string := "  " +:+ nl +:+ " ".

(** A frame with two numeric columns besides the x-column, after a
    column of text. *)
Definition yearly_figures : DataFrame :=
  [ {| series_name := "year"; dtype := int64; cells := ["2020"; "2021"] |};
    {| series_name := "region"; dtype := object_; cells := ["north"; "south"] |};
    {| series_name := "revenue"; dtype := int64; cells := ["100"; "200"] |};
    {| series_name := "profit"; dtype := float64; cells := ["10.5"; "20.5"] |} ].

(** A pandas whose numeric conversion always raises. *)
Definition strict_pandas : Pandas := {|
  read_csv := plain_read_csv;
  to_numeric_coerce := fun _ => None;
  to_datetime_ignore := fun s => Some s
|}.

Definition plot_call : ToolCall := {|
  tc_name := "plot_table";
  tc_args := {[ "table_text" := csv_table ]};
  tc_id := "call_2"
|}.

(** The visualizer asks for the plot tool. *)
Definition visualizer_tool_chat : ChatModel := {|
  invoke_runnable := fun r _ =>
    match r with
    | visualizer_runnable => (CStr "Plotting revenue per year as a line.", [plot_call])
    | _ => (CStr "noted", [])
    end
|}.



(** Two results, the second without content. *)
Definition one_hit : Tavily := {|
  tavily_results := fun _ _ => [Some "EV sales rose."; None; Some ""]
|}.

Definition keys_without_tavily : Settings := {|
  GOOGLE_API_KEY := "g-key";
  TAVILY_API_KEY := "";
  ANTHROPIC_API_KEY := "a-key"
|}.

End MoreFixtures.

Module MoreStatements.
Import Visualization Routing Nodes Graph.

(** What [_flatten_messages] yields: an object that is neither [None] nor
    a list. *)
Definition is_leaf (r : Raw) : Prop :=
  match r with
  | RMsg _ | RForeign => True
  | RNone | RSeq _ => False
  end.

(** Two states the routers cannot tell apart: same messages and
    table_text, and modes that agree on being research and on being
    summary. *)
Definition routing_view (s1 s2 : MyGraphState) : Prop :=
  messages s1 = messages s2 /\ table_text s1 = table_text s2 /\
  String.eqb (get_mode s1) "research" = String.eqb (get_mode s2) "research" /\
  String.eqb (get_mode s1) "summary" = String.eqb (get_mode s2) "summary".

(** Steps of the research loop. *)
Definition research_loop (l : list string) : Prop :=
  Forall (fun n => n = "researcher_agent" \/ n = "tools") l.

(** How a run may go on after the research loop. *)
Definition closing_steps (l : list string) : Prop :=
  l = [] \/ l = ["summarizer_agent"] \/
  l = ["summarizer_agent"; "visualizer_agent"].



(** The errors [plot_table] raises by itself. *)
Definition plot_table_error (chart_type : string) (e : Exn) : Prop :=
  e = ValueError empty_msg \/ e = ValueError unparseable_msg \/
  e = ValueError no_numeric_msg \/ e = ValueError (unsupported_msg chart_type) \/
  e = IndexError.

End MoreStatements.

(** * Proofs *)

(** ** Python strings *)

Module PyFacts.
Import Statements.

Lemma rstrip_by_truthy p s :
  Py.truthy (Py.rstrip_by p s) = existsb (fun c => negb (p c)) (list_ascii_of_string s).
Proof.
  induction s as [|a s IH]; simpl; [reflexivity|].
  destruct (Py.rstrip_by p s) eqn:Hr; simpl in *.
  - rewrite <- IH, orb_false_r. destruct (p a); reflexivity.
  - rewrite <- IH, orb_true_r. reflexivity.
Qed.

Lemma lstrip_by_exists p s :
  existsb (fun c => negb (p c)) (list_ascii_of_string (Py.lstrip_by p s))
  = existsb (fun c => negb (p c)) (list_ascii_of_string s).
Proof.
  induction s as [|a s IH]; simpl; [reflexivity|].
  destruct (p a) eqn:Hp; simpl; [exact IH | rewrite Hp; reflexivity].
Qed.

Lemma nonblank_existsb s :
  nonblank s = existsb (fun c => negb (Py.isspace c)) (list_ascii_of_string s).
Proof. induction s as [|a s IH]; simpl; [reflexivity | rewrite IH; reflexivity]. Qed.

(** [text.strip()] is truthy exactly for a non-blank text. *)
Lemma strip_truthy s : Py.truthy (Py.strip s) = nonblank s.
Proof.
  unfold Py.strip, Py.strip_by.
  rewrite rstrip_by_truthy, lstrip_by_exists, nonblank_existsb. reflexivity.
Qed.

End PyFacts.

(** ** helpers.py *)

Module HelpersFacts.
Import Helpers Statements PyFacts.

(** The stack loop yields the messages of the nested sequence in order. *)
Lemma flatten_loop_leaves stack : flatten_loop stack = flat_map leaves stack.
Proof.
  funelim (flatten_loop stack); simp flatten_loop; simpl.
  - reflexivity.
  - assumption.
  - f_equal. assumption.
  - f_equal. assumption.
  - rewrite H, flat_map_app. reflexivity.
Qed.

(** The text the loop body computes is the truthy parts joined. *)
Lemma content_text_truthy content :
  content_text content = joined_truthy_text content.
Proof. destruct content as [s|[|p l]]; reflexivity. Qed.

Lemma scan_step_spec acc r :
  scan_step acc r
  = match nonblank_truthy_assistant r with Some m => Some m | None => acc end.
Proof.
  unfold nonblank_truthy_assistant, nonblank_assistant_by.
  destruct r as [|[]| |]; simpl; try reflexivity.
  rewrite strip_truthy, content_text_truthy. destruct (nonblank _); reflexivity.
Qed.

(** The loop keeps the last hit, or its initial value when there is none. *)
Lemma fold_scan_last l : forall acc,
  fold_left scan_step l acc =
  match last (omap nonblank_truthy_assistant l) with
  | Some m => Some m
  | None => acc
  end.
Proof.
  induction l as [|r l IH]; intros acc; simpl; [reflexivity|].
  rewrite IH, scan_step_spec.
  destruct (nonblank_truthy_assistant r) as [m|]; simpl; [|reflexivity].
  rewrite last_cons. destruct (last _); reflexivity.
Qed.

Lemma nonblank_app a b : nonblank (a +:+ b) = nonblank a || nonblank b.
Proof.
  induction a as [|c a IH]; [reflexivity|].
  change (String c a +:+ b) with (String c (a +:+ b)).
  simpl. rewrite IH, orb_assoc. reflexivity.
Qed.

Lemma nonblank_join l : nonblank (Py.join " " l) = existsb nonblank l.
Proof.
  induction l as [|a l IH]; [reflexivity|].
  destruct l as [|b l].
  - simpl. rewrite orb_false_r. reflexivity.
  - change (Py.join " " (a :: b :: l)) with (a +:+ " " +:+ Py.join " " (b :: l)).
    rewrite !nonblank_app, IH. reflexivity.
Qed.

(** Leaving out the parts that are falsy does not change whether the
    joined text is blank, as long as a falsy part prints blank; a falsy
    string is empty, so this covers every list of strings. *)
Lemma joined_truthy_text_joined parts :
  Forall prints_blank_when_falsy parts ->
  nonblank (joined_truthy_text (CList parts)) = nonblank (joined_text (CList parts)).
Proof.
  intros Hall. unfold joined_truthy_text, joined_text, truthy_parts.
  rewrite !nonblank_join.
  induction Hall as [|x l Hx _ IH]; [reflexivity|].
  rewrite filter_cons. simpl. destruct (decide (item_truthy x = true)) as [Ht|Hf].
  - simpl. rewrite IH. reflexivity.
  - rewrite IH. rewrite Hx; [reflexivity|]. destruct (item_truthy x); congruence.
Qed.

Lemma strings_print_blank_when_falsy parts :
  (forall x, In x parts -> exists s, x = ItemStr s) ->
  Forall prints_blank_when_falsy parts.
Proof.
  intros Hstr. apply Forall_forall. intros x Hx.
  apply list_elem_of_In, Hstr in Hx as [s ->]. unfold prints_blank_when_falsy.
  simpl. destruct s; [reflexivity | discriminate].
Qed.

Lemma omap_step_by text (r : Raw) l :
  omap (nonblank_assistant_by text) (r :: l) =
  match nonblank_assistant_by text r with
  | Some m => m :: omap (nonblank_assistant_by text) l
  | None => omap (nonblank_assistant_by text) l
  end.
Proof. reflexivity. Qed.

(** On messages whose falsy parts print blank, the rule with every part
    joined and the rule with the truthy parts joined pick the same
    message. *)
Lemma rules_agree_when_falsy_parts_print_blank msgs :
  (forall parts tcs, In (RMsg (AIMessage (CList parts) tcs)) (flat_map leaves msgs) ->
     Forall prints_blank_when_falsy parts) ->
  most_recent_nonblank_assistant msgs = most_recent_nonblank_truthy_assistant msgs.
Proof.
  unfold most_recent_nonblank_assistant, most_recent_nonblank_truthy_assistant,
    most_recent_by.
  induction (flat_map leaves msgs) as [|r l IH]; intros Hall; [reflexivity|].
  assert (Hr : nonblank_assistant_by joined_text r
               = nonblank_assistant_by joined_truthy_text r).
  { destruct r as [|[c tcs| | |]| |]; try reflexivity.
    destruct c as [s|parts]; [reflexivity|]. unfold nonblank_assistant_by.
    rewrite joined_truthy_text_joined; [reflexivity|].
    apply (Hall parts tcs). left. reflexivity. }
  rewrite !omap_step_by, Hr.
  assert (IH' := IH (fun parts tcs Hin => Hall parts tcs (or_intror Hin))).
  destruct (nonblank_assistant_by joined_truthy_text r); [|exact IH'].
  rewrite !last_cons, IH'. reflexivity.
Qed.

(** C6, counterexample. An assistant message whose content is a list
    holding one empty dict: joined with spaces the content reads as two
    braces, which is not blank, so the rule as worded returns the
    message; the code leaves the falsy part out and returns none. *)
Lemma empty_dict_part_is_left_out :
  nonblank (joined_text (CList [ItemObj false "{}"])) = true
  /\ most_recent_nonblank_assistant [RMsg (AIMessage (CList [ItemObj false "{}"]) [])]
     = Some (AIMessage (CList [ItemObj false "{}"]) [])
  /\ last_nonempty_ai_message [RMsg (AIMessage (CList [ItemObj false "{}"]) [])]
     = None
  /\ last_nonempty_ai_message [RMsg (AIMessage (CList [ItemObj false "{}"]) [])]
     <> most_recent_nonblank_assistant
          [RMsg (AIMessage (CList [ItemObj false "{}"]) [])].
Proof.
  split; [vm_compute; reflexivity|].
  split; [vm_compute; reflexivity|].
  split; [vm_compute; reflexivity|].
  vm_compute. discriminate.
Qed.

(** C6, amended. [last_nonempty_ai_message] returns the most recent
    assistant message of the (possibly nested) sequence whose text is
    non-blank, where the text of list-valued content is its truthy parts
    joined with spaces; human and tool-result messages never count, and
    the result is none when no assistant message has non-blank text. On
    [assistant(""), assistant("  "), human("x"), assistant("hello")] it
    returns the "hello" message. *)
Theorem last_nonempty_ai_message_most_recent :
  (forall msgs,
     last_nonempty_ai_message msgs = most_recent_nonblank_truthy_assistant msgs)
  /\ last_nonempty_ai_message
       [RMsg (AIMessage (CStr "") []); RMsg (AIMessage (CStr "  ") []);
        RMsg (HumanMessage (CStr "x")); RMsg (AIMessage (CStr "hello") [])]
     = Some (AIMessage (CStr "hello") [])
  /\ last_nonempty_ai_message
       [RMsg (HumanMessage (CStr "x")); RMsg (ToolMessage "id" "web_search" (CStr "found"));
        RMsg (AIMessage (CList [ItemStr ""; ItemStr " "]) [])]
     = None.
Proof.
  split; [|split; reflexivity].
  intros msgs. unfold last_nonempty_ai_message, _flatten_messages,
    most_recent_nonblank_truthy_assistant, most_recent_by.
  rewrite fold_scan_last, flatten_loop_leaves.
  destruct (last _); reflexivity.
Qed.

Lemma omap_step (r : Raw) l :
  omap nonblank_truthy_assistant (r :: l) =
  match nonblank_truthy_assistant r with
  | Some m => m :: omap nonblank_truthy_assistant l
  | None => omap nonblank_truthy_assistant l
  end.
Proof. apply omap_step_by. Qed.

Lemma nonblank_assistant_hit r m :
  nonblank_truthy_assistant r = Some m -> r = RMsg m.
Proof.
  unfold nonblank_truthy_assistant, nonblank_assistant_by.
  destruct r as [|[]| |]; simpl; try discriminate.
  destruct (nonblank _); [|discriminate]. intros [= <-]. reflexivity.
Qed.

Lemma omap_nil_iff l :
  omap nonblank_truthy_assistant l = [] <->
  Forall (fun r => nonblank_truthy_assistant r = None) l.
Proof.
  induction l as [|r l IH]; [split; [constructor | reflexivity]|].
  rewrite omap_step. destruct (nonblank_truthy_assistant r) eqn:Hr.
  - split; [discriminate|]. intros Hall. inversion Hall; congruence.
  - rewrite IH. split; [constructor; assumption|].
    intros Hall. inversion Hall; assumption.
Qed.

(** Reading [most_recent_nonblank_truthy_assistant]: a result splits the
    sequence at an assistant message with non-blank text after which no
    such message occurs. *)
Lemma most_recent_is_last_hit msgs m :
  most_recent_nonblank_truthy_assistant msgs = Some m ->
  exists before after,
    flat_map leaves msgs = (before ++ RMsg m :: after)%list /\
    nonblank_truthy_assistant (RMsg m) = Some m /\
    Forall (fun r => nonblank_truthy_assistant r = None) after.
Proof.
  unfold most_recent_nonblank_truthy_assistant, most_recent_by.
  fold nonblank_truthy_assistant.
  induction (flat_map leaves msgs) as [|r l IH]; [discriminate|].
  rewrite omap_step.
  destruct (nonblank_truthy_assistant r) as [m'|] eqn:Hr.
  - rewrite last_cons.
    destruct (last (omap nonblank_truthy_assistant l)) as [m0|] eqn:Hl.
    + intros Hm. destruct (IH Hm) as (b & a & -> & ? & ?).
      exists (r :: b), a. auto.
    + intros [= <-]. exists [], l.
      pose proof (nonblank_assistant_hit _ _ Hr) as ->.
      split; [reflexivity|]. split; [assumption|].
      apply omap_nil_iff, last_None. assumption.
  - intros Hm. destruct (IH Hm) as (b & a & -> & ? & ?).
    exists (r :: b), a. auto.
Qed.

Lemma most_recent_none_iff msgs :
  most_recent_nonblank_truthy_assistant msgs = None <->
  Forall (fun r => nonblank_truthy_assistant r = None) (flat_map leaves msgs).
Proof.
  unfold most_recent_nonblank_truthy_assistant, most_recent_by.
  rewrite last_None. apply omap_nil_iff.
Qed.

End HelpersFacts.

(** ** visualization.py *)

Module PlotFacts.
Import Visualization Statements Fixtures.

Section AnyPandas.
Context `{Pandas} `{Runtime}.

(** Line 76 already takes the second column whenever there is one, so
    the conversion of lines 78-85 never runs on a frame that has one:
    [choose_y] does not depend on [to_numeric_coerce]. *)
Lemma choose_y_first_y df x :
  choose_y df x =
  match first_y df x with
  | Some y => Ok (df, y)
  | None => Raise (ValueError no_numeric_msg)
  end.
Proof.
  unfold choose_y. destruct (first_y df x) as [y|] eqn:Hy; [reflexivity|].
  unfold coerce_second. unfold first_y in Hy.
  destruct (numeric_cols df x); [|discriminate].
  destruct (columns df) as [|a [|b l]]; simpl in *; try reflexivity.
  discriminate.
Qed.

(** With no numeric column besides x, a frame of two or more columns
    gets its second column as y, as it was read. *)
Lemma second_column_as_is df x c :
  numeric_cols df x = [] -> columns df !! 1%nat = Some c ->
  choose_y df x = Ok (df, c).
Proof.
  intros Hnum Hc. rewrite choose_y_first_y. unfold first_y. rewrite Hnum.
  destruct (columns df) as [|a [|b l]]; simpl in *; try discriminate.
  congruence.
Qed.

Lemma get_series_in df c :
  In c (columns df) -> exists s, get_series df c = Ok s.
Proof.
  unfold get_series, columns. induction df as [|s df IH]; simpl; [tauto|].
  destruct (String.eqb (series_name s) c) eqn:E; [eauto|].
  intros [Hs|Hin]; [|auto].
  apply String.eqb_neq in E. contradiction.
Qed.

Lemma columns_set_series df c s :
  columns (set_series df c s) = columns df.
Proof.
  unfold columns, set_series. rewrite map_map.
  apply map_ext_in. intros old _.
  destruct (String.eqb (series_name old) c) eqn:E; [|reflexivity].
  apply String.eqb_eq in E. simpl. congruence.
Qed.

Lemma columns_parse_dates df x : columns (parse_dates df x) = columns df.
Proof.
  unfold parse_dates, get_series.
  destruct (find _ df) as [s|] eqn:Hf; [|reflexivity].
  destruct (to_datetime_ignore s); [|reflexivity].
  apply columns_set_series.
Qed.

Lemma choose_x_in df x : choose_x df = Ok x -> In x (columns df).
Proof.
  unfold choose_x. destruct (find _ (columns df)) as [c|] eqn:Hf.
  - intros [= <-]. apply find_some in Hf. tauto.
  - destruct (columns df); [discriminate|]. intros [= <-]. left. reflexivity.
Qed.

Lemma numeric_cols_in df x c : In c (numeric_cols df x) -> In c (columns df).
Proof.
  unfold numeric_cols, columns. rewrite !in_map_iff.
  intros (s & <- & Hs). exists s. split; [reflexivity|].
  apply list_elem_of_In. apply list_elem_of_In in Hs.
  apply list_elem_of_filter in Hs. tauto.
Qed.

Lemma first_y_in df x y : first_y df x = Some y -> In y (columns df).
Proof.
  unfold first_y. destruct (numeric_cols df x) as [|c l] eqn:Hn.
  - destruct (1 <? length (columns df))%nat; [|discriminate].
    intros Hy. apply list_elem_of_In. eapply list_elem_of_lookup_2. eassumption.
  - intros [= <-]. apply (numeric_cols_in df x). rewrite Hn. left. reflexivity.
Qed.

(** Both chosen columns are columns of the parsed frame. *)
Lemma parse_columns text t :
  parse text = Ok t ->
  In (x_col t) (columns (frame t)) /\ In (y_col t) (columns (frame t)).
Proof.
  unfold parse. destruct (negb _); [discriminate|].
  destruct (read_frame _) as [df|]; [|discriminate].
  destruct (choose_x df) as [x|] eqn:Hx; [|discriminate].
  simpl. rewrite choose_y_first_y.
  destruct (first_y df x) as [y|] eqn:Hy; [|discriminate].
  simpl. intros [= <-]. simpl. rewrite columns_parse_dates.
  split; [apply choose_x_in; assumption | eapply first_y_in; eassumption].
Qed.

Lemma supported_chart_type_iff chart_type :
  supported_chart_type chart_type = true <->
  chart_type = "line" \/ chart_type = "bar" \/ chart_type = "scatter".
Proof.
  unfold supported_chart_type. rewrite !orb_true_iff, !String.eqb_eq. tauto.
Qed.

(** On the markdown table the comma reader is handed the lines with
    their inner pipes still in place, whatever the reader does then. *)
Lemma markdown_goes_to_comma_reader :
  read_frame markdown_table =
  match read_csv comma ("year|revenue" +:+ nl +:+ "2020|100" +:+ nl +:+ "2021|200") with
  | Some d => Some d
  | None => read_csv whitespace_runs markdown_table
  end.
Proof.
  unfold read_frame.
  replace (Py.contains "|" markdown_table && Py.search_pipe_rule markdown_table)
    with true by (vm_compute; reflexivity).
  replace (markdown_to_csv markdown_table)
    with ("year|revenue" +:+ nl +:+ "2020|100" +:+ nl +:+ "2021|200")
    by (vm_compute; reflexivity).
  reflexivity.
Qed.

(** C7. For a table that parsed, [plot_table] draws and saves a PNG for
    each of the chart types line, bar and scatter, and fails with the
    unsupported-chart-type error for every other value; for a table
    that did not parse, the parse error is the result whatever the
    chart type. With the plain reader, pie is refused on a good table
    and the three supported types succeed. *)
Theorem unsupported_chart_type_only_after_parsing text chart_type :
  match parse text with
  | Ok t =>
      if supported_chart_type chart_type
      then exists x y,
             plot_table text chart_type =
             Ok {| out_path :=
                     PLOT_OUTPUT_DIR +:+ os_sep +:+
                     ("plot_" +:+ utcnow_stamp +:+ "_" +:+
                      String.substring 0 6 uuid4_hex +:+ ".png");
                   saved_figure :=
                     {| fig_kind := chart_type; fig_x := x; fig_y := y;
                        fig_title := y_col t +:+ " vs " +:+ x_col t;
                        fig_xlabel := x_col t; fig_ylabel := y_col t |} |}
      else plot_table text chart_type = Raise (ValueError (unsupported_msg chart_type))
  | Raise e => plot_table text chart_type = Raise e
  end
  /\ supported_chart_type "pie" = false
  /\ @plot_table plain_pandas fixed_runtime csv_table "pie"
     = Raise (ValueError "plot_table: Unsupported chart_type: pie")
  /\ match @plot_table plain_pandas fixed_runtime csv_table "line" with
     | Ok saved => out_path saved = "outputs/plot_20240101120000_012345.png"
                   /\ fig_kind (saved_figure saved) = "line"
     | Raise _ => False
     end
  /\ match @plot_table plain_pandas fixed_runtime csv_table "bar" with
     | Ok saved => out_path saved = "outputs/plot_20240101120000_012345.png"
                   /\ fig_kind (saved_figure saved) = "bar"
     | Raise _ => False
     end
  /\ match @plot_table plain_pandas fixed_runtime csv_table "scatter" with
     | Ok saved => out_path saved = "outputs/plot_20240101120000_012345.png"
                   /\ fig_kind (saved_figure saved) = "scatter"
     | Raise _ => False
     end
  /\ @plot_table plain_pandas fixed_runtime "" "pie" = Raise (ValueError empty_msg).
Proof.
  split; [|split; [reflexivity|split; [vm_compute; reflexivity|]]].
  - unfold plot_table. destruct (parse text) as [t|e] eqn:Hp; [|reflexivity].
    simpl. destruct (parse_columns _ _ Hp) as [Hx Hy].
    destruct (get_series_in _ _ Hx) as [sx Hsx].
    destruct (get_series_in _ _ Hy) as [sy Hsy].
    unfold render, draw, supported_chart_type.
    destruct (String.eqb chart_type "line") eqn:E1; simpl.
    { rewrite Hsx, Hsy. simpl. eauto. }
    destruct (String.eqb chart_type "bar") eqn:E2; simpl.
    { rewrite Hsx, Hsy. simpl. eauto. }
    destruct (String.eqb chart_type "scatter") eqn:E3; simpl.
    { rewrite Hsx, Hsy. simpl. eauto. }
    reflexivity.
  - split; [vm_compute; split; reflexivity|].
    split; [vm_compute; split; reflexivity|].
    split; [vm_compute; split; reflexivity|].
    vm_compute. reflexivity.
Qed.

End AnyPandas.

(** The texts the examples hand to [plain_read_csv] are plain tables:
    the three comma-separated tables, the markdown table as the
    markdown branch rewrites it, and the single column read by blanks. *)
Lemma example_tables_are_plain :
  plain_table comma csv_table = true
  /\ plain_table comma names_cities = true
  /\ plain_table comma names_years = true
  /\ plain_table comma (markdown_to_csv markdown_table) = true
  /\ plain_table whitespace_runs MoreFixtures.single_numeric_column = true.
Proof.
  split; [vm_compute; reflexivity|].
  split; [vm_compute; reflexivity|].
  split; [vm_compute; reflexivity|].
  split; vm_compute; reflexivity.
Qed.

(** C2. On the table [name,year / Alice,2020 / Bob,2021] the parser
    succeeds with the year column as x and as y: no numeric column other
    than x exists, the second declared column is taken as it is, and it is
    the x-column. *)
Theorem y_column_equals_x_column :
  @parse plain_pandas names_years
  = Ok {| frame := [ {| series_name := "name"; dtype := object_; cells := ["Alice"; "Bob"] |};
                     {| series_name := "year"; dtype := int64; cells := ["2020"; "2021"] |} ];
          x_col := "year"; y_col := "year" |}
  /\ numeric_cols
       [ {| series_name := "name"; dtype := object_; cells := ["Alice"; "Bob"] |};
         {| series_name := "year"; dtype := int64; cells := ["2020"; "2021"] |} ]
       "year" = [].
Proof. split; vm_compute; reflexivity. Qed.

(** C4. On the table [name,city / Alice,Paris / Bob,Rome], which has no
    numeric column at all, [plot_table] does not fail: it plots the city
    column, read as text, against the name column. *)
Theorem no_numeric_column_still_plots :
  @plot_table plain_pandas fixed_runtime names_cities "line"
  = Ok {| out_path := "outputs/plot_20240101120000_012345.png";
          saved_figure :=
            {| fig_kind := "line";
               fig_x := {| series_name := "name"; dtype := object_;
                           cells := ["Alice"; "Bob"] |};
               fig_y := {| series_name := "city"; dtype := object_;
                           cells := ["Paris"; "Rome"] |};
               fig_title := "city vs name";
               fig_xlabel := "name";
               fig_ylabel := "city" |} |}
  /\ @read_frame plain_pandas names_cities
     = Some [ {| series_name := "name"; dtype := object_; cells := ["Alice"; "Bob"] |};
              {| series_name := "city"; dtype := object_; cells := ["Paris"; "Rome"] |} ]
  /\ is_numeric_dtype {| series_name := "name"; dtype := object_;
                         cells := ["Alice"; "Bob"] |} = false
  /\ is_numeric_dtype {| series_name := "city"; dtype := object_;
                         cells := ["Paris"; "Rome"] |} = false.
Proof.
  split; [vm_compute; reflexivity|].
  split; [vm_compute; reflexivity|].
  split; reflexivity.
Qed.

(** C5. The markdown table with the separator row [|---|---|] does not
    parse like the same data written as CSV: separator row and outer
    pipes are stripped, the inner pipes stay, the comma reader sees one
    column per line, and parsing fails for want of a numeric column,
    while the CSV text parses with x = year and y = revenue. *)
Theorem markdown_table_not_read_like_csv :
  markdown_to_csv markdown_table
  = "year|revenue" +:+ nl +:+ "2020|100" +:+ nl +:+ "2021|200"
  /\ @read_frame plain_pandas markdown_table
     = Some [ {| series_name := "year|revenue"; dtype := object_;
                 cells := ["2020|100"; "2021|200"] |} ]
  /\ @parse plain_pandas markdown_table = Raise (ValueError no_numeric_msg)
  /\ @parse plain_pandas csv_table
     = Ok {| frame := [ {| series_name := "year"; dtype := int64; cells := ["2020"; "2021"] |};
                        {| series_name := "revenue"; dtype := int64; cells := ["100"; "200"] |} ];
             x_col := "year"; y_col := "revenue" |}.
Proof.
  split; [vm_compute; reflexivity|].
  split; [vm_compute; reflexivity|].
  split; vm_compute; reflexivity.
Qed.

End PlotFacts.

(** ** routing.py *)

Module RoutingFacts.
Import Routing Statements Fixtures.

Lemma route_from_researcher_reads state :
  route_from_researcher state =
  match last_requests_tool state with
  | None => Raise IndexError
  | Some true => Ok "tools"
  | Some false => if String.eqb (get_mode state) "research" then Ok END
                  else Ok "summarizer_agent"
  end.
Proof.
  unfold route_from_researcher, last_message, last_requests_tool.
  destruct (last (messages state)) as [m|]; simpl; [|reflexivity].
  destruct (requests_tool m); reflexivity.
Qed.

Lemma route_from_summarizer_reads state :
  route_from_summarizer state =
  match last_requests_tool state with
  | None => Raise IndexError
  | Some true => Ok "tools"
  | Some false => if String.eqb (get_mode state) "summary" then Ok END
                  else Ok "visualizer_agent"
  end.
Proof.
  unfold route_from_summarizer, last_message, last_requests_tool.
  destruct (last (messages state)) as [m|]; simpl; [|reflexivity].
  destruct (requests_tool m); reflexivity.
Qed.

Lemma route_from_visualizer_reads state :
  route_from_visualizer state =
  match last_requests_tool state with
  | None => Raise IndexError
  | Some true => Ok "tools"
  | Some false => Ok END
  end.
Proof.
  unfold route_from_visualizer, last_message, last_requests_tool.
  destruct (last (messages state)) as [m|]; simpl; [|reflexivity].
  destruct (requests_tool m); reflexivity.
Qed.

(** C10. Two states with the same mode (an absent mode counting as full)
    whose last messages agree on carrying tool calls get the same answer
    from each of the three routers, whatever their earlier messages, their
    message texts and their table_text. *)
Theorem routers_read_mode_and_tool_request_only state1 state2 :
  get_mode state1 = get_mode state2 ->
  last_requests_tool state1 = last_requests_tool state2 ->
  route_from_researcher state1 = route_from_researcher state2 /\
  route_from_summarizer state1 = route_from_summarizer state2 /\
  route_from_visualizer state1 = route_from_visualizer state2.
Proof.
  intros Hmode Hlast.
  rewrite !route_from_researcher_reads, !route_from_summarizer_reads,
    !route_from_visualizer_reads, Hmode, Hlast.
  auto.
Qed.

Lemma routers_read_mode_and_tool_request_only_witness :
  route_from_researcher (asking_state None)
    = route_from_researcher (other_asking_state (Some "full")) /\
  route_from_summarizer (asking_state None)
    = route_from_summarizer (other_asking_state (Some "full")) /\
  route_from_visualizer (asking_state None)
    = route_from_visualizer (other_asking_state (Some "full")).
Proof.
  apply (routers_read_mode_and_tool_request_only
           (asking_state None) (other_asking_state (Some "full"))); reflexivity.
Defined.

End RoutingFacts.

(** ** nodes.py *)

Module NodesFacts.
Import Visualization Search Routing Nodes Statements Fixtures.

(** C3, counterexample. The text "line, not bar" contains "bar", so the
    rule as worded selects bar; the code selects line. *)
Lemma chart_kind_bar_needs_no_line :
  Py.contains "bar" (Py.lower "line, not bar") = true /\
  spec_chart_kind (Py.lower "line, not bar") = "bar" /\
  chart_type_of_content (CStr "line, not bar") = Ok "line" /\
  chart_type_of_content (CStr "line, not bar")
    <> Ok (spec_chart_kind (Py.lower "line, not bar")).
Proof.
  split; [vm_compute; reflexivity|].
  split; [vm_compute; reflexivity|].
  split; [vm_compute; reflexivity|].
  vm_compute. discriminate.
Qed.

Lemma chart_type_of_string s :
  chart_type_of_content (CStr s) = Ok (guarded_chart_kind (Py.lower s)).
Proof. reflexivity. Qed.

Lemma guarded_kind_bar_chart t :
  Py.contains "bar chart" t = true -> guarded_chart_kind t = "bar".
Proof. unfold guarded_chart_kind. intros ->. reflexivity. Qed.

Section AnyModel.
Context {chat : ChatModel} {pandas : Pandas} {runtime : Runtime} {uuid : Uuid}.

(** C3, amended. When the visualizer's model answers with the text [s]
    and no tool call and table_text is non-empty, the step appends the
    answer and then the outcome of [plot_table] on table_text with the
    kind read off the lowercased text: bar when it contains "bar chart",
    or contains "bar" and does not contain "line"; otherwise scatter
    when it contains "scatter"; otherwise line. A text that mentions
    "bar chart" selects bar. *)
Theorem auto_plot_chart_kind state s t :
  invoke_runnable visualizer_runnable (messages state) = (CStr s, []) ->
  table_text state = Some t ->
  Py.truthy t = true ->
  let text := Py.lower s in
  let kind :=
    if Py.contains "bar chart" text
       || (Py.contains "bar" text && negb (Py.contains "line" text))
    then "bar"
    else if Py.contains "scatter" text then "scatter"
    else "line" in
  visualizer_agent state =
    AIMessage (CStr s) [] ::
    match plot_table t kind with
    | Ok saved =>
        [ToolMessage uuid4_str "plot_table" (CStr (out_path saved));
         AIMessage
           (CStr ("Automatically plotted table as a " +:+ kind +:+
                  " chart. File saved at: " +:+ out_path saved)) []]
    | Raise e =>
        [AIMessage (CStr ("Failed to auto-plot the table: " +:+ exn_str e)) []]
    end
  /\ (Py.contains "bar chart" text = true -> kind = "bar").
Proof.
  intros Hai Ht Htruthy text kind.
  split.
  - unfold visualizer_agent. rewrite Hai, Ht, Htruthy.
    unfold auto_plot. rewrite chart_type_of_string.
    change (guarded_chart_kind (Py.lower s)) with kind.
    simpl. destruct (plot_table t kind); reflexivity.
  - apply guarded_kind_bar_chart.
Qed.

(** A non-empty list as content has no [lower]: the attempt is caught and
    reported in place of a plot. *)
Lemma auto_plot_list_content x l t :
  auto_plot (CList (x :: l)) t =
  [AIMessage
     (CStr ("Failed to auto-plot the table: " +:+
            "'list' object has no attribute 'lower'")) []].
Proof. reflexivity. Qed.

End AnyModel.

Lemma auto_plot_chart_kind_witness :
  @visualizer_agent bar_chart_chat plain_pandas fixed_runtime fixed_uuid
    (input None (Some csv_table))
  = [AIMessage (CStr "A Bar Chart of revenue per year fits best.") [];
     ToolMessage "01234567-89ab-cdef-0123-456789abcdef" "plot_table"
       (CStr "outputs/plot_20240101120000_012345.png");
     AIMessage
       (CStr ("Automatically plotted table as a bar chart. " +:+
              "File saved at: outputs/plot_20240101120000_012345.png")) []].
Proof.
  destruct (@auto_plot_chart_kind bar_chart_chat plain_pandas fixed_runtime fixed_uuid
              (input None (Some csv_table))
              "A Bar Chart of revenue per year fits best." csv_table
              eq_refl eq_refl eq_refl) as [Hrun _].
  rewrite Hrun. vm_compute. reflexivity.
Defined.

End NodesFacts.

(** ** graph.py *)

Module GraphFacts.
Import Visualization Search Routing Nodes Graph Statements Fixtures RoutingFacts.

(** *** The run loop, for any graph *)

Lemma run_from_S g b node state :
  run_from g (S b) node state =
  if String.eqb node END then stop Finished state
  else
    match nodes g !! node with
    | None => stop (Failed (KeyError node)) state
    | Some f =>
        match f state with
        | Raise e => logged node [] (stop (Failed e) state)
        | Ok new =>
            match next_node g node (add_messages state new) with
            | Raise e => logged node [] (stop (Failed e) state)
            | Ok dst => logged node new (run_from g b dst (add_messages state new))
            end
        end
    end.
Proof. reflexivity. Qed.

Lemma run_from_END g b state : run_from g b END state = stop Finished state.
Proof. destruct b; reflexivity. Qed.

(** The final messages are the initial ones followed by what the steps
    added, in the order of the log. *)
Lemma final_messages g b : forall node state,
  messages (final (run_from g b node state))
  = (messages state ++ concat (map snd (log (run_from g b node state))))%list.
Proof.
  induction b as [|b IH]; intros node state.
  - simpl. destruct (String.eqb node END); simpl; rewrite app_nil_r; reflexivity.
  - rewrite run_from_S. destruct (String.eqb node END); [simpl; rewrite app_nil_r; reflexivity|].
    destruct (nodes g !! node) as [f|]; [|simpl; rewrite app_nil_r; reflexivity].
    destruct (f state) as [new|e]; [|simpl; rewrite app_nil_r; reflexivity].
    destruct (next_node g node (add_messages state new)) as [dst|e].
    + simpl. rewrite IH. simpl. rewrite app_assoc. reflexivity.
    + simpl. rewrite app_nil_r. reflexivity.
Qed.

Lemma walk_lookup R l : walk R l ->
  forall i a c, l !! i = Some a -> l !! S i = Some c -> R a c.
Proof.
  induction 1 as [|a|a b l Hab Hw IH]; intros i x y Hx Hy.
  - discriminate.
  - destruct i; discriminate.
  - destruct i as [|i]; simpl in *.
    + congruence.
    + eapply IH; eassumption.
Qed.

Lemma last_requests_tool_add state new m :
  last new = Some m ->
  last_requests_tool (add_messages state new) = Some (requests_tool m).
Proof.
  intros Hl. unfold last_requests_tool, add_messages. simpl.
  destruct new as [|x new]; [discriminate|].
  rewrite last_app, Hl. reflexivity.
Qed.

Section AnyModel.
Context {chat : ChatModel} {pandas : Pandas} {runtime : Runtime}
        {uuid : Uuid} {tavily : Tavily} {texts : ToolNodeTexts}.

(** *** The graph [create_graph] builds *)

Lemma nodes_create_graph n :
  nodes create_graph !! n =
  if decide ("tools" = n) then Some tools_node
  else if decide ("visualizer_agent" = n) then Some (fun s => Ok (visualizer_agent s))
  else if decide ("summarizer_agent" = n) then Some (fun s => Ok (summarizer_agent s))
  else if decide ("researcher_agent" = n) then Some (fun s => Ok (researcher_agent s))
  else if decide ("planner_agent" = n) then Some (fun s => Ok (planner_agent s))
  else None.
Proof.
  unfold create_graph, add_node, add_edge, add_conditional_edges, new_graph. simpl.
  rewrite !lookup_insert, lookup_empty. reflexivity.
Qed.

Lemma entry_point limit input :
  invoke create_graph limit input = run_from create_graph limit "planner_agent" input.
Proof. reflexivity. Qed.

Lemma next_node_planner state :
  next_node create_graph "planner_agent" state = Ok "researcher_agent".
Proof. reflexivity. Qed.

Lemma next_node_tools state :
  next_node create_graph "tools" state = Ok "researcher_agent".
Proof. reflexivity. Qed.

Lemma next_node_researcher state :
  next_node create_graph "researcher_agent" state =
  match last_requests_tool state with
  | None => Raise IndexError
  | Some true => Ok "tools"
  | Some false => if String.eqb (get_mode state) "research" then Ok END
                  else Ok "summarizer_agent"
  end.
Proof.
  change (next_node create_graph "researcher_agent" state)
    with (route_from_researcher state ≫= fun label =>
            match (<["tools" := "tools"]>
                     (<["summarizer_agent" := "summarizer_agent"]>
                        (<[END := END]> (∅ : gmap string string)))) !! label with
            | Some dst => Ok dst
            | None => Raise (KeyError label)
            end).
  rewrite route_from_researcher_reads.
  destruct (last_requests_tool state) as [[|]|]; [reflexivity| |reflexivity].
  destruct (String.eqb (get_mode state) "research"); reflexivity.
Qed.

(** The path map of the summarizer has no entry for the label "tools". *)
Lemma next_node_summarizer state :
  next_node create_graph "summarizer_agent" state =
  match last_requests_tool state with
  | None => Raise IndexError
  | Some true => Raise (KeyError "tools")
  | Some false => if String.eqb (get_mode state) "summary" then Ok END
                  else Ok "visualizer_agent"
  end.
Proof.
  change (next_node create_graph "summarizer_agent" state)
    with (route_from_summarizer state ≫= fun label =>
            match (<["visualizer_agent" := "visualizer_agent"]>
                     (<[END := END]> (∅ : gmap string string))) !! label with
            | Some dst => Ok dst
            | None => Raise (KeyError label)
            end).
  rewrite route_from_summarizer_reads.
  destruct (last_requests_tool state) as [[|]|]; [reflexivity| |reflexivity].
  destruct (String.eqb (get_mode state) "summary"); reflexivity.
Qed.

(** Nor has the path map of the visualizer. *)
Lemma next_node_visualizer state :
  next_node create_graph "visualizer_agent" state =
  match last_requests_tool state with
  | None => Raise IndexError
  | Some true => Raise (KeyError "tools")
  | Some false => Ok END
  end.
Proof.
  change (next_node create_graph "visualizer_agent" state)
    with (route_from_visualizer state ≫= fun label =>
            match (<[END := END]> (∅ : gmap string string)) !! label with
            | Some dst => Ok dst
            | None => Raise (KeyError label)
            end).
  rewrite route_from_visualizer_reads.
  destruct (last_requests_tool state) as [[|]|]; reflexivity.
Qed.

(** Every transition the graph makes between two steps is one of
    [graph_edge]. *)
Lemma next_node_edge n f state dst :
  nodes create_graph !! n = Some f ->
  next_node create_graph n state = Ok dst ->
  dst = END \/ graph_edge n dst.
Proof.
  rewrite nodes_create_graph. unfold graph_edge.
  repeat case_decide; subst; try discriminate; intros _.
  - rewrite next_node_tools. intros [= <-]. tauto.
  - rewrite next_node_visualizer.
    destruct (last_requests_tool state) as [[|]|]; try discriminate.
    intros [= <-]. tauto.
  - rewrite next_node_summarizer.
    destruct (last_requests_tool state) as [[|]|]; try discriminate.
    destruct (String.eqb _ _); intros [= <-]; tauto.
  - rewrite next_node_researcher.
    destruct (last_requests_tool state) as [[|]|]; try discriminate.
    + intros [= <-]. tauto.
    + destruct (String.eqb _ _); intros [= <-]; tauto.
  - rewrite next_node_planner. intros [= <-]. tauto.
Qed.

(** The steps of a run start at the entry node and follow the edges. *)
Lemma steps_walk b : forall node state,
  let l := steps (run_from create_graph b node state) in
  walk graph_edge l /\ (l = [] \/ exists l', l = node :: l').
Proof.
  induction b as [|b IH]; intros node state l; subst l.
  - simpl. destruct (String.eqb node END); simpl; split; auto using walk_nil.
  - rewrite run_from_S.
    destruct (String.eqb node END) eqn:Hend; [simpl; split; auto using walk_nil|].
    destruct (nodes create_graph !! node) as [f|] eqn:Hf;
      [|simpl; split; auto using walk_nil].
    destruct (f state) as [new|e];
      [|unfold steps, logged; simpl; split; [apply walk_one | eauto]].
    destruct (next_node create_graph node (add_messages state new)) as [dst|e] eqn:Hn.
    + unfold steps, logged. simpl.
      destruct (IH dst (add_messages state new)) as [Hw Hhd].
      unfold steps in Hw, Hhd. split; [|eauto].
      destruct Hhd as [-> | [l' Hl']]; [apply walk_one|].
      rewrite Hl' in Hw |- *. apply walk_cons; [|assumption].
      destruct (next_node_edge _ _ _ _ Hf Hn) as [-> | He]; [|assumption].
      rewrite run_from_END in Hl'. discriminate.
    + unfold steps, logged. simpl. split; [apply walk_one | eauto].
Qed.

(** The graph as wired: the Tool step hands over to Research whatever
    the state, a Research message that requests a tool leads to the Tool
    step, and in a run a Tool step stands between two Research steps. *)
Lemma tool_step_between_research_steps :
  (forall state, next_node create_graph "tools" state = Ok "researcher_agent")
  /\ (forall state m,
        last_message state = Ok m -> requests_tool m = true ->
        next_node create_graph "researcher_agent" state = Ok "tools")
  /\ (forall limit input i,
        steps (invoke create_graph limit input) !! i = Some "tools" ->
        (exists j, i = S j /\
           steps (invoke create_graph limit input) !! j = Some "researcher_agent")
        /\ (forall n, steps (invoke create_graph limit input) !! S i = Some n ->
              n = "researcher_agent")).
Proof.
  split; [exact next_node_tools|]. split.
  - intros state m Hm Hreq. rewrite next_node_researcher.
    unfold last_message in Hm. unfold last_requests_tool.
    destruct (last (messages state)) as [m'|]; [|discriminate].
    injection Hm as ->. simpl. rewrite Hreq. reflexivity.
  - intros limit input i Hi. rewrite entry_point in *.
    destruct (steps_walk limit "planner_agent" input) as [Hw Hhd].
    set (l := steps (run_from create_graph limit "planner_agent" input)) in *.
    split.
    + destruct i as [|j].
      * destruct Hhd as [Hnil | [l' Hl']]; rewrite ?Hnil, ?Hl' in Hi; discriminate.
      * exists j. split; [reflexivity|].
        destruct (l !! j) as [a|] eqn:Ha.
        -- pose proof (walk_lookup _ _ Hw j a "tools" Ha Hi) as He.
           unfold graph_edge in He.
           destruct He as [[_ ?]|[[-> _]|[[_ ?]|[_ ?]]]]; try discriminate.
           reflexivity.
        -- apply lookup_ge_None in Ha. apply lookup_lt_Some in Hi. lia.
    + intros n Hn. pose proof (walk_lookup _ _ Hw i "tools" n Hi Hn) as He.
      unfold graph_edge in He.
      destruct He as [[? _]|[[? _]|[[_ ->]|[? _]]]]; try discriminate.
      reflexivity.
Qed.

(** *** One step of the run, node by node *)

Lemma mode_add_messages state new : mode (add_messages state new) = mode state.
Proof. reflexivity. Qed.

Lemma get_mode_add_messages state new :
  get_mode (add_messages state new) = get_mode state.
Proof. reflexivity. Qed.

Lemma last_requests_tool_ai r state :
  last_requests_tool (add_messages state [ai_message r state])
  = Some (requests_tool (ai_message r state)).
Proof. apply last_requests_tool_add. reflexivity. Qed.

(** What the visualizer appends ends with its answer when that asks for a
    tool, and with a message without tool calls otherwise. *)
Lemma last_requests_tool_visualizer state :
  last_requests_tool (add_messages state (visualizer_agent state))
  = Some (requests_tool (ai_message visualizer_runnable state)).
Proof.
  unfold visualizer_agent, ai_message.
  destruct (invoke_runnable visualizer_runnable (messages state)) as [content tcs].
  destruct tcs as [|tc tcs]; [|apply last_requests_tool_add; reflexivity].
  destruct (table_text state) as [t|]; [|apply last_requests_tool_add; reflexivity].
  destruct (Py.truthy t); [|apply last_requests_tool_add; reflexivity].
  unfold auto_plot.
  destruct (chart_type_of_content content ≫= _) as [[kind path]|e];
    erewrite last_requests_tool_add by reflexivity; reflexivity.
Qed.

Lemma run_planner b state :
  run_from create_graph (S b) "planner_agent" state =
  logged "planner_agent" (planner_agent state)
    (run_from create_graph b "researcher_agent"
       (add_messages state (planner_agent state))).
Proof. reflexivity. Qed.

Lemma run_researcher b state :
  run_from create_graph (S b) "researcher_agent" state =
  logged "researcher_agent" (researcher_agent state)
    (if requests_tool (ai_message researcher_runnable state)
     then run_from create_graph b "tools" (add_messages state (researcher_agent state))
     else if String.eqb (get_mode state) "research"
     then stop Finished (add_messages state (researcher_agent state))
     else run_from create_graph b "summarizer_agent"
            (add_messages state (researcher_agent state))).
Proof.
  rewrite run_from_S. change (String.eqb "researcher_agent" END) with false.
  rewrite nodes_create_graph. repeat (case_decide; [discriminate|]).
  case_decide; [|congruence]. cbv beta iota.
  rewrite next_node_researcher. unfold researcher_agent.
  rewrite last_requests_tool_ai, get_mode_add_messages.
  destruct (requests_tool _); [reflexivity|].
  destruct (String.eqb _ _); [rewrite run_from_END|]; reflexivity.
Qed.

Lemma run_summarizer b state :
  run_from create_graph (S b) "summarizer_agent" state =
  if requests_tool (ai_message summarizer_runnable state)
  then logged "summarizer_agent" [] (stop (Failed (KeyError "tools")) state)
  else
    logged "summarizer_agent" (summarizer_agent state)
      (if String.eqb (get_mode state) "summary"
       then stop Finished (add_messages state (summarizer_agent state))
       else run_from create_graph b "visualizer_agent"
              (add_messages state (summarizer_agent state))).
Proof.
  rewrite run_from_S. change (String.eqb "summarizer_agent" END) with false.
  rewrite nodes_create_graph. repeat (case_decide; [discriminate|]).
  case_decide; [|congruence]. cbv beta iota.
  rewrite next_node_summarizer. unfold summarizer_agent.
  rewrite last_requests_tool_ai, get_mode_add_messages.
  destruct (requests_tool _); [reflexivity|].
  destruct (String.eqb _ _); [rewrite run_from_END|]; reflexivity.
Qed.

Lemma run_visualizer b state :
  run_from create_graph (S b) "visualizer_agent" state =
  if requests_tool (ai_message visualizer_runnable state)
  then logged "visualizer_agent" [] (stop (Failed (KeyError "tools")) state)
  else
    logged "visualizer_agent" (visualizer_agent state)
      (stop Finished (add_messages state (visualizer_agent state))).
Proof.
  rewrite run_from_S. change (String.eqb "visualizer_agent" END) with false.
  rewrite nodes_create_graph. repeat (case_decide; [discriminate|]).
  case_decide; [|congruence]. cbv beta iota.
  rewrite next_node_visualizer, last_requests_tool_visualizer.
  destruct (requests_tool _); [reflexivity|].
  rewrite run_from_END. reflexivity.
Qed.

Lemma run_tools b state :
  run_from create_graph (S b) "tools" state =
  match tools_node state with
  | Raise e => logged "tools" [] (stop (Failed e) state)
  | Ok new =>
      logged "tools" new
        (run_from create_graph b "researcher_agent" (add_messages state new))
  end.
Proof. reflexivity. Qed.

Lemma run_unknown b n state :
  n <> END -> nodes create_graph !! n = None ->
  run_from create_graph (S b) n state = stop (Failed (KeyError n)) state.
Proof.
  intros Hn Hnone. rewrite run_from_S.
  apply String.eqb_neq in Hn. rewrite Hn. rewrite Hnone. reflexivity.
Qed.

Lemma run_out_of_budget g n state :
  run_from g 0 n state =
  if String.eqb n END then stop Finished state else stop RecursionLimit state.
Proof. reflexivity. Qed.

Lemma node_cases n :
  n = END \/ n = "tools" \/ n = "visualizer_agent" \/ n = "summarizer_agent" \/
  n = "researcher_agent" \/ n = "planner_agent" \/
  (n <> END /\ nodes create_graph !! n = None).
Proof.
  destruct (decide (n = END)) as [|Hend]; [tauto|].
  rewrite nodes_create_graph. repeat case_decide; subst; tauto.
Qed.

(** *** Research mode *)

Lemma research_mode_steps b : forall node state,
  get_mode state = "research" ->
  node = "researcher_agent" \/ node = "tools" ->
  Forall (fun n => n = "researcher_agent" \/ n = "tools")
         (steps (run_from create_graph b node state)).
Proof.
  induction b as [|b IH]; intros node state Hmode Hnode.
  - rewrite run_out_of_budget. destruct (String.eqb node END); constructor.
  - destruct Hnode as [-> | ->].
    + rewrite run_researcher. unfold steps, logged. simpl.
      constructor; [tauto|].
      destruct (requests_tool _).
      * apply IH; [assumption | tauto].
      * rewrite Hmode. constructor.
    + rewrite run_tools. destruct (tools_node state) as [new|e];
        [|repeat constructor; tauto].
      unfold steps, logged. simpl. constructor; [tauto|].
      apply IH; [assumption | tauto].
Qed.

Lemma authored_by_absent node r :
  ~ In node (steps r) -> authored_by node r = [].
Proof.
  unfold authored_by, steps. induction (log r) as [|[n new] l IH]; [reflexivity|].
  simpl. intros Hnot. rewrite filter_cons. simpl.
  destruct (decide (n = node)) as [->|_]; [tauto|].
  apply IH. tauto.
Qed.

(** C8. In research mode the run consists of Plan, Research and Tool steps
    only: no message of the final state is authored by Summarize or
    Visualize. A Research step whose message requests no tool ends the run
    at once; one whose message requests a tool goes to the Tool step first,
    research mode or not. *)
Theorem research_mode_ends_after_research limit input :
  mode input = Some "research" ->
  (forall n, In n (steps (invoke create_graph limit input)) ->
     n = "planner_agent" \/ n = "researcher_agent" \/ n = "tools")
  /\ authored_by "summarizer_agent" (invoke create_graph limit input) = []
  /\ authored_by "visualizer_agent" (invoke create_graph limit input) = []
  /\ messages (final (invoke create_graph limit input))
     = (messages input ++ concat (map snd (log (invoke create_graph limit input))))%list
  /\ (forall b state,
        mode state = Some "research" ->
        requests_tool (ai_message researcher_runnable state) = false ->
        run_from create_graph (S b) "researcher_agent" state
        = logged "researcher_agent" (researcher_agent state)
            (stop Finished (add_messages state (researcher_agent state))))
  /\ (forall b state,
        mode state = Some "research" ->
        requests_tool (ai_message researcher_runnable state) = true ->
        route_from_researcher (add_messages state (researcher_agent state)) = Ok "tools"
        /\ run_from create_graph (S b) "researcher_agent" state
           = logged "researcher_agent" (researcher_agent state)
               (run_from create_graph b "tools"
                  (add_messages state (researcher_agent state)))).
Proof.
  intros Hmode.
  assert (Hsteps : forall n, In n (steps (invoke create_graph limit input)) ->
            n = "planner_agent" \/ n = "researcher_agent" \/ n = "tools").
  { rewrite entry_point. destruct limit as [|b].
    - simpl. tauto.
    - rewrite run_planner. unfold steps, logged. simpl.
      intros n [<-|Hn]; [tauto|]. right.
      pose proof (research_mode_steps b "researcher_agent"
                    (add_messages input (planner_agent input))) as Hall.
      rewrite Forall_forall in Hall. apply Hall.
      + unfold get_mode. simpl. rewrite Hmode. reflexivity.
      + tauto.
      + apply list_elem_of_In. exact Hn. }
  split; [exact Hsteps|].
  split; [apply authored_by_absent; intros Hin; apply Hsteps in Hin;
          destruct Hin as [?|[?|?]]; discriminate|].
  split; [apply authored_by_absent; intros Hin; apply Hsteps in Hin;
          destruct Hin as [?|[?|?]]; discriminate|].
  split; [rewrite entry_point; apply final_messages|].
  split.
  - intros b state Hm Hreq. rewrite run_researcher, Hreq.
    unfold get_mode. rewrite Hm. reflexivity.
  - intros b state Hm Hreq. split.
    + rewrite route_from_researcher_reads. unfold researcher_agent.
      rewrite last_requests_tool_ai, Hreq. reflexivity.
    + rewrite run_researcher, Hreq. reflexivity.
Qed.

(** *** Full mode, and an absent mode *)

Lemma ai_message_same_view r s1 s2 :
  same_view s1 s2 -> ai_message r s1 = ai_message r s2.
Proof. intros (Hm & _ & _). unfold ai_message. rewrite Hm. reflexivity. Qed.

Lemma visualizer_same_view s1 s2 :
  same_view s1 s2 -> visualizer_agent s1 = visualizer_agent s2.
Proof. intros (Hm & Ht & _). unfold visualizer_agent. rewrite Hm, Ht. reflexivity. Qed.

Lemma tools_same_view s1 s2 :
  same_view s1 s2 -> tools_node s1 = tools_node s2.
Proof. intros (Hm & _ & _). unfold tools_node. rewrite Hm. reflexivity. Qed.

Lemma same_view_add s1 s2 new :
  same_view s1 s2 -> same_view (add_messages s1 new) (add_messages s2 new).
Proof.
  intros (Hm & Ht & Hg). unfold same_view, add_messages, get_mode in *. simpl.
  rewrite Hm. auto.
Qed.

(** Two runs from states the loop cannot tell apart stop the same way,
    with the same log, in states it cannot tell apart. *)
Lemma run_same_view b : forall node s1 s2,
  same_view s1 s2 ->
  status (run_from create_graph b node s1) = status (run_from create_graph b node s2)
  /\ log (run_from create_graph b node s1) = log (run_from create_graph b node s2)
  /\ same_view (final (run_from create_graph b node s1))
               (final (run_from create_graph b node s2)).
Proof.
  induction b as [|b IH]; intros node s1 s2 Hv.
  - rewrite !run_out_of_budget. destruct (String.eqb node END); simpl; auto.
  - pose proof Hv as (Hm & Ht & Hg).
    destruct (node_cases node) as [->|[->|[->|[->|[->|[->|[Hn Hnone]]]]]]].
    + rewrite !run_from_END. simpl. auto.
    + rewrite !run_tools, (tools_same_view _ _ Hv).
      destruct (tools_node s2) as [new|e]; [|simpl; auto].
      destruct (IH "researcher_agent" _ _ (same_view_add _ _ new Hv)) as (? & ? & ?).
      simpl. repeat split; try congruence; apply H1.
    + rewrite !run_visualizer, (visualizer_same_view _ _ Hv),
        (ai_message_same_view _ _ _ Hv).
      pose proof (same_view_add _ _ (visualizer_agent s2) Hv) as Hv'.
      destruct (requests_tool _); simpl; auto.
    + rewrite !run_summarizer. unfold summarizer_agent.
      rewrite (ai_message_same_view _ _ _ Hv), Hg.
      pose proof (same_view_add _ _ [ai_message summarizer_runnable s2] Hv) as Hv'.
      destruct (requests_tool _); [simpl; auto|].
      destruct (String.eqb _ _); [simpl; auto|].
      destruct (IH "visualizer_agent" _ _ Hv') as (? & ? & ?).
      simpl. repeat split; try congruence; apply H1.
    + rewrite !run_researcher. unfold researcher_agent.
      rewrite (ai_message_same_view _ _ _ Hv), Hg.
      pose proof (same_view_add _ _ [ai_message researcher_runnable s2] Hv) as Hv'.
      destruct (requests_tool _).
      * destruct (IH "tools" _ _ Hv') as (? & ? & ?).
        simpl. repeat split; try congruence; apply H1.
      * destruct (String.eqb _ _); [simpl; auto|].
        destruct (IH "summarizer_agent" _ _ Hv') as (? & ? & ?).
        simpl. repeat split; try congruence; apply H1.
    + rewrite !run_planner. unfold planner_agent.
      rewrite (ai_message_same_view _ _ _ Hv).
      pose proof (same_view_add _ _ [ai_message planner_runnable s2] Hv) as Hv'.
      destruct (IH "researcher_agent" _ _ Hv') as (? & ? & ?).
      simpl. repeat split; try congruence; apply H1.
    + rewrite !run_unknown by assumption. simpl. auto.
Qed.

(** C9. A run whose mode is absent goes as the run with mode full: same
    outcome, same steps with the same appended messages, same final
    messages. When the mode is neither research nor summary and the
    messages of Research, Summarize and Visualize request no tool, a run
    allowed at least four steps runs Plan, Research, Summarize and
    Visualize once each, in that order, and finishes. *)
Theorem absent_mode_is_full_and_full_runs_each_step_once :
  (forall limit state,
     status (invoke create_graph limit (set_mode None state))
     = status (invoke create_graph limit (set_mode (Some "full") state))
     /\ log (invoke create_graph limit (set_mode None state))
        = log (invoke create_graph limit (set_mode (Some "full") state))
     /\ messages (final (invoke create_graph limit (set_mode None state)))
        = messages (final (invoke create_graph limit (set_mode (Some "full") state))))
  /\ (forall limit input,
        get_mode input <> "research" -> get_mode input <> "summary" ->
        4 <= limit ->
        let s1 := add_messages input (planner_agent input) in
        let s2 := add_messages s1 (researcher_agent s1) in
        let s3 := add_messages s2 (summarizer_agent s2) in
        requests_tool (ai_message researcher_runnable s1) = false ->
        requests_tool (ai_message summarizer_runnable s2) = false ->
        requests_tool (ai_message visualizer_runnable s3) = false ->
        invoke create_graph limit input
        = {| status := Finished;
             final := add_messages s3 (visualizer_agent s3);
             log := [("planner_agent", planner_agent input);
                     ("researcher_agent", researcher_agent s1);
                     ("summarizer_agent", summarizer_agent s2);
                     ("visualizer_agent", visualizer_agent s3)] |}
        /\ steps (invoke create_graph limit input)
           = ["planner_agent"; "researcher_agent"; "summarizer_agent";
              "visualizer_agent"]).
Proof.
  split.
  - intros limit state. rewrite !entry_point.
    destruct (run_same_view limit "planner_agent"
                (set_mode None state) (set_mode (Some "full") state))
      as (Hs & Hl & Hm & _).
    + repeat split.
    + auto.
  - intros limit input Hres Hsum Hlimit s1 s2 s3 Hr Hs Hv.
    assert (Hrun : invoke create_graph limit input
                   = {| status := Finished;
                        final := add_messages s3 (visualizer_agent s3);
                        log := [("planner_agent", planner_agent input);
                                ("researcher_agent", researcher_agent s1);
                                ("summarizer_agent", summarizer_agent s2);
                                ("visualizer_agent", visualizer_agent s3)] |}).
    { rewrite entry_point.
      destruct limit as [|[|[|[|b]]]]; try lia.
      apply String.eqb_neq in Hres, Hsum.
      subst s3 s2 s1.
      rewrite run_planner, run_researcher, Hr, get_mode_add_messages, Hres.
      rewrite run_summarizer, Hs, !get_mode_add_messages, Hsum.
      rewrite run_visualizer, Hv. reflexivity. }
    split; [exact Hrun|]. rewrite Hrun. reflexivity.
Qed.

End AnyModel.

(** C1. A tool request of the Summarize or of the Visualize step is not
    served. The router of the step answers "tools", as its docstring
    says, but the path map the graph gives that step holds no such
    label: the run fails there with the key error on "tools", the Tool
    step does not run and the step does not run again. Only the path
    map of the Research step leads to the Tool step, and the Tool step
    hands over to Research whoever asked. *)
Theorem tool_request_outside_research_fails_the_run :
  route_from_summarizer (asking_state None) = Ok "tools"
  /\ next_node (graph_with quiet_chat) "summarizer_agent" (asking_state None)
     = Raise (KeyError "tools")
  /\ route_from_visualizer (asking_state None) = Ok "tools"
  /\ next_node (graph_with quiet_chat) "visualizer_agent" (asking_state None)
     = Raise (KeyError "tools")
  /\ next_node (graph_with quiet_chat) "researcher_agent" (asking_state None)
     = Ok "tools"
  /\ next_node (graph_with quiet_chat) "tools" (asking_state None)
     = Ok "researcher_agent"
  /\ status (invoke (graph_with summarizer_tool_chat) 24 (input None None))
     = Failed (KeyError "tools")
  /\ steps (invoke (graph_with summarizer_tool_chat) 24 (input None None))
     = ["planner_agent"; "researcher_agent"; "summarizer_agent"]
  /\ status (invoke (graph_with MoreFixtures.visualizer_tool_chat) 24
               (input None (Some csv_table)))
     = Failed (KeyError "tools")
  /\ steps (invoke (graph_with MoreFixtures.visualizer_tool_chat) 24
              (input None (Some csv_table)))
     = ["planner_agent"; "researcher_agent"; "summarizer_agent"; "visualizer_agent"]
  /\ ~ tool_returns_to_requester (graph_with quiet_chat) "summarizer_agent"
  /\ ~ tool_returns_to_requester (graph_with quiet_chat) "visualizer_agent".
Proof.
  split; [vm_compute; reflexivity|].
  split; [vm_compute; reflexivity|].
  split; [vm_compute; reflexivity|].
  split; [vm_compute; reflexivity|].
  split; [vm_compute; reflexivity|].
  split; [vm_compute; reflexivity|].
  split; [vm_compute; reflexivity|].
  split; [vm_compute; reflexivity|].
  split; [vm_compute; reflexivity|].
  split; [vm_compute; reflexivity|].
  split; intros Hret;
    destruct (Hret (asking_state None) (AIMessage (CStr "") [search_call])
                eq_refl eq_refl) as [Hgo _];
    vm_compute in Hgo; discriminate.
Qed.

Lemma research_mode_ends_after_research_witness :
  authored_by "summarizer_agent"
    (invoke (graph_with searching_chat) 25 (input (Some "research") None)) = []
  /\ authored_by "visualizer_agent"
       (invoke (graph_with searching_chat) 25 (input (Some "research") None)) = []
  /\ route_from_researcher
       (add_messages (input (Some "research") None)
          (@researcher_agent searching_chat (input (Some "research") None)))
     = Ok "tools".
Proof.
  destruct (@research_mode_ends_after_research searching_chat plain_pandas
              fixed_runtime fixed_uuid no_results short_texts 25%nat
              (input (Some "research") None) eq_refl)
    as (_ & Hsum & Hvis & _ & _ & Htool).
  split; [exact Hsum|]. split; [exact Hvis|].
  apply (Htool 0%nat (input (Some "research") None)); reflexivity.
Defined.

Lemma absent_mode_is_full_and_full_runs_each_step_once_witness :
  steps (invoke (graph_with quiet_chat) 25 (input (Some "visualize") (Some csv_table)))
  = ["planner_agent"; "researcher_agent"; "summarizer_agent"; "visualizer_agent"]
  /\ log (invoke (graph_with quiet_chat) 25 (set_mode None (input (Some "summary") None)))
     = log (invoke (graph_with quiet_chat) 25 (set_mode (Some "full") (input (Some "summary") None))).
Proof.
  destruct (@absent_mode_is_full_and_full_runs_each_step_once quiet_chat plain_pandas
              fixed_runtime fixed_uuid no_results short_texts) as [Habsent Hfull].
  split.
  - apply (Hfull 25%nat (input (Some "visualize") (Some csv_table)));
      try reflexivity; try (vm_compute; discriminate).
    vm_compute. lia.
  - apply (Habsent 25%nat (input (Some "summary") None)).
Defined.

End GraphFacts.

(** * Further properties of the code *)

(** ** helpers.py *)

Module HelpersMore.
Import Helpers Statements MoreStatements PyFacts HelpersFacts.

Lemma flatten_loop_leaf_only stack : Forall is_leaf (flatten_loop stack).
Proof.
  funelim (flatten_loop stack); simp flatten_loop;
    try assumption; constructor; solve [exact I | assumption].
Qed.

Lemma flatten_loop_of_leaves l : Forall is_leaf l -> flatten_loop l = l.
Proof.
  induction 1 as [|r l Hr _ IH]; simp flatten_loop; [reflexivity|].
  destruct r; try contradiction; simp flatten_loop; rewrite IH; reflexivity.
Qed.

(** X1. [_flatten_messages] yields the messages of the sequence, each of
    them once and in the order they stand in, looking through nesting:
    what it yields is the sequence of leaves, read depth first. So a
    sequence without [None] and without lists is yielded as it is, a
    message at the head is yielded first, a list counts as its elements
    in place and [None] as nothing, the pieces of a concatenation are
    flattened one after the other, nothing that is [None] or a list is
    yielded, and flattening a second time changes nothing. *)
Theorem flatten_messages_sees_through_nesting :
  (forall l, _flatten_messages l = flat_map leaves l)
  /\ (forall l, Forall is_leaf l -> _flatten_messages l = l)
  /\ (forall m l, _flatten_messages (RMsg m :: l) = RMsg m :: _flatten_messages l)
  /\ (forall l, Forall is_leaf (_flatten_messages l))
  /\ (forall a b, _flatten_messages (a ++ b)
                  = (_flatten_messages a ++ _flatten_messages b)%list)
  /\ (forall a l b, _flatten_messages (a ++ RSeq l :: b)
                    = _flatten_messages (a ++ l ++ b))
  /\ (forall a b, _flatten_messages (a ++ RNone :: b) = _flatten_messages (a ++ b))
  /\ (forall l, _flatten_messages (_flatten_messages l) = _flatten_messages l).
Proof.
  unfold _flatten_messages. split; [exact flatten_loop_leaves|].
  split; [exact flatten_loop_of_leaves|].
  split; [intros m l; rewrite !flatten_loop_leaves; reflexivity|].
  split; [exact flatten_loop_leaf_only|].
  split; [intros a b; rewrite !flatten_loop_leaves; apply flat_map_app|].
  split.
  { intros a l b. rewrite !flatten_loop_leaves, !flat_map_app. reflexivity. }
  split.
  { intros a b. rewrite !flatten_loop_leaves, !flat_map_app. reflexivity. }
  intros l. apply flatten_loop_of_leaves, flatten_loop_leaf_only.
Qed.

Lemma last_nonempty_fold msgs :
  last_nonempty_ai_message msgs = fold_left scan_step (flat_map leaves msgs) None.
Proof.
  unfold last_nonempty_ai_message, _flatten_messages.
  rewrite flatten_loop_leaves. reflexivity.
Qed.

(** X2. The answer is not hidden by what follows it: adding one message at the
    end makes that message the result when it is an assistant message with
    non-blank text, and leaves the result as it was when it is a human, a
    tool or a system message or an assistant message with blank text. *)
Theorem last_nonempty_ai_message_after_append msgs m :
  last_nonempty_ai_message (msgs ++ [RMsg m]) =
  match m with
  | AIMessage content _ =>
      if nonblank (content_text content) then Some m
      else last_nonempty_ai_message msgs
  | _ => last_nonempty_ai_message msgs
  end.
Proof.
  rewrite !last_nonempty_fold, flat_map_app, fold_left_app. simpl.
  destruct m as [content tcs| | |]; try reflexivity.
  simpl. rewrite strip_truthy. reflexivity.
Qed.

(** X3. The result, when there is one, is an assistant message that occurs in
    the sequence and has non-blank text: never a human or tool-result
    message, never a message that is not there. *)
Theorem last_nonempty_ai_message_is_from_input msgs m :
  last_nonempty_ai_message msgs = Some m ->
  In (RMsg m) (_flatten_messages msgs)
  /\ exists content tcs,
       m = AIMessage content tcs /\ nonblank (content_text content) = true.
Proof.
  rewrite last_nonempty_fold, fold_scan_last.
  change (last (omap nonblank_truthy_assistant (flat_map leaves msgs)))
    with (most_recent_nonblank_truthy_assistant msgs).
  destruct (most_recent_nonblank_truthy_assistant msgs) as [m'|] eqn:Hm;
    [|discriminate].
  intros [= ->].
  destruct (most_recent_is_last_hit _ _ Hm) as (before & after & Hsplit & Hhit & _).
  split.
  - unfold _flatten_messages. rewrite flatten_loop_leaves, Hsplit.
    apply in_or_app. right. left. reflexivity.
  - unfold nonblank_truthy_assistant, nonblank_assistant_by in Hhit.
    destruct m as [content tcs| | |]; try discriminate.
    exists content, tcs. split; [reflexivity|]. rewrite content_text_truthy.
    destruct (nonblank (joined_truthy_text content)); [reflexivity | discriminate].
Qed.

Lemma last_nonempty_ai_message_is_from_input_witness :
  In (RMsg (AIMessage (CStr "hello") []))
     (_flatten_messages
        [RSeq [RNone; RMsg (AIMessage (CStr "hello") [])];
         RMsg (HumanMessage (CStr "thanks"))])
  /\ exists content tcs,
       AIMessage (CStr "hello") [] = AIMessage content tcs
       /\ nonblank (content_text content) = true.
Proof.
  apply (last_nonempty_ai_message_is_from_input
           [RSeq [RNone; RMsg (AIMessage (CStr "hello") [])];
            RMsg (HumanMessage (CStr "thanks"))]
           (AIMessage (CStr "hello") [])).
  vm_compute. reflexivity.
Defined.

End HelpersMore.

(** ** search.py *)

Module SearchMore.
Import Visualization Search MoreFixtures.

Lemma join_truthy sep p ps :
  Py.truthy p = true -> Py.truthy (Py.join sep (p :: ps)) = true.
Proof.
  destruct p as [|c p]; [discriminate|]. intros _.
  destruct ps; reflexivity.
Qed.

Section AnyTavily.
Context {tavily : Tavily}.

(** X4. [web_search] never returns the empty string: it returns the fixed
    sentence "No results found." exactly when no result carries non-empty
    content, and otherwise the non-empty contents, in order, joined by a
    blank line. *)
Theorem web_search_never_empty user_input :
  let chunks :=
    omap (fun r => match r with
                   | Some c => if Py.truthy c then Some c else None
                   | None => None
                   end)
         (tavily_results TAVILY_MAX_RESULTS user_input) in
  Py.truthy (web_search user_input) = true
  /\ web_search user_input
     = match chunks with
       | [] => "No results found."
       | _ :: _ => Py.join (nl +:+ nl) chunks
       end
  /\ Forall (fun c => Py.truthy c = true) chunks.
Proof.
  intros chunks.
  assert (Hall : Forall (fun c => Py.truthy c = true) chunks).
  { subst chunks. induction (tavily_results TAVILY_MAX_RESULTS user_input) as [|r l IH];
      [constructor|].
    change (omap ?f (r :: l)) with
      (match f r with Some y => y :: omap f l | None => omap f l end).
    destruct r as [c|]; [|exact IH].
    destruct (Py.truthy c) eqn:Hc; [constructor; assumption | exact IH]. }
  unfold web_search. fold chunks.
  destruct chunks as [|c cs].
  - split; [reflexivity|]. split; [reflexivity | constructor].
  - pose proof (Forall_inv Hall) as Hc. cbv zeta.
    rewrite (join_truthy (nl +:+ nl) c cs Hc).
    split; [apply join_truthy; exact Hc|]. split; [reflexivity | exact Hall].
Qed.

End AnyTavily.

End SearchMore.

(** ** settings.py *)

Module ConfigMore.
Import Config MoreFixtures.

(** X5. [validate] returns true exactly when none of the three keys is
    empty, and then prints nothing. Otherwise it prints one line: the
    warning followed by the names of the empty keys, in the order
    Google, Tavily, Anthropic, separated by a comma and a blank. With
    the Tavily key alone empty the line names that key; with all three
    empty it names the three. *)
Theorem validate_true_iff_all_keys_set s :
  (snd (validate s) = true <->
     Py.truthy (GOOGLE_API_KEY s) = true /\ Py.truthy (TAVILY_API_KEY s) = true
     /\ Py.truthy (ANTHROPIC_API_KEY s) = true)
  /\ fst (validate s)
     = (if snd (validate s) then []
        else ["WARNING: Missing environment variables: " +:+
              Py.join ", "
                ((if Py.truthy (GOOGLE_API_KEY s) then [] else ["GOOGLE_API_KEY"])
                 ++ (if Py.truthy (TAVILY_API_KEY s) then [] else ["TAVILY_API_KEY"])
                 ++ (if Py.truthy (ANTHROPIC_API_KEY s) then []
                     else ["ANTHROPIC_API_KEY"]))%list])
  /\ validate keys_without_tavily
     = (["WARNING: Missing environment variables: TAVILY_API_KEY"], false)
  /\ validate {| GOOGLE_API_KEY := ""; TAVILY_API_KEY := ""; ANTHROPIC_API_KEY := "" |}
     = (["WARNING: Missing environment variables: " +:+
         "GOOGLE_API_KEY, TAVILY_API_KEY, ANTHROPIC_API_KEY"], false).
Proof.
  split; [|split; [|split; vm_compute; reflexivity]].
  - unfold validate, missing_variables.
    destruct (Py.truthy (GOOGLE_API_KEY s)), (Py.truthy (TAVILY_API_KEY s)),
      (Py.truthy (ANTHROPIC_API_KEY s)); simpl;
      split; intros; try discriminate; try tauto;
      match goal with H : _ /\ _ |- _ => decompose [and] H; discriminate end.
  - unfold validate, missing_variables.
    destruct (Py.truthy (GOOGLE_API_KEY s)), (Py.truthy (TAVILY_API_KEY s)),
      (Py.truthy (ANTHROPIC_API_KEY s)); reflexivity.
Qed.

End ConfigMore.

(** ** visualization.py *)

Module PlotMore.
Import Visualization Statements MoreStatements Fixtures MoreFixtures PyFacts PlotFacts.

(** *** Stripping twice is stripping once *)

Lemma rstrip_by_idempotent p s :
  Py.rstrip_by p (Py.rstrip_by p s) = Py.rstrip_by p s.
Proof.
  induction s as [|c s IH]; [reflexivity|]. simpl.
  destruct (Py.rstrip_by p s) as [|d r] eqn:Hr.
  - destruct (p c) eqn:Hp; [reflexivity|]. simpl. rewrite Hp. reflexivity.
  - change (Py.rstrip_by p (String c (String d r)))
      with (match Py.rstrip_by p (String d r) with
            | EmptyString => if p c then EmptyString else String c EmptyString
            | String a b => String c (String a b)
            end).
    rewrite IH. reflexivity.
Qed.

Lemma lstrip_by_head p s :
  match Py.lstrip_by p s with
  | EmptyString => True
  | String c _ => p c = false
  end.
Proof.
  induction s as [|c s IH]; simpl; [exact I|].
  destruct (p c) eqn:Hp; [exact IH | exact Hp].
Qed.

Lemma rstrip_by_keeps_head p c s :
  p c = false -> exists r, Py.rstrip_by p (String c s) = String c r.
Proof.
  intros Hp. simpl. destruct (Py.rstrip_by p s); [rewrite Hp|]; eauto.
Qed.

Lemma strip_by_idempotent p s :
  Py.strip_by p (Py.strip_by p s) = Py.strip_by p s.
Proof.
  unfold Py.strip_by. pose proof (lstrip_by_head p s) as Hhead.
  destruct (Py.lstrip_by p s) as [|c u]; [reflexivity|].
  destruct (rstrip_by_keeps_head p c u Hhead) as [r Hr].
  rewrite Hr. simpl Py.lstrip_by. rewrite Hhead, <- Hr.
  apply rstrip_by_idempotent.
Qed.

Lemma find_split {A} (f : A -> bool) l x :
  find f l = Some x ->
  exists before after,
    l = (before ++ x :: after)%list /\ f x = true /\
    Forall (fun y => f y = false) before.
Proof.
  induction l as [|a l IH]; simpl; [discriminate|].
  destruct (f a) eqn:Hfa.
  - intros [= <-]. exists [], l. auto.
  - intros Hx. destruct (IH Hx) as (b & r & -> & ? & ?).
    exists (a :: b), r. auto.
Qed.

Lemma find_none_all {A} (f : A -> bool) l :
  find f l = None -> Forall (fun y => f y = false) l.
Proof.
  induction l as [|a l IH]; simpl; [constructor|].
  destruct (f a) eqn:Hfa; [discriminate|]. auto.
Qed.

(** The first column that is numeric and is not [x], with what stands
    before it in the frame. *)
Lemma numeric_cols_first df x :
  (exists s, In s df /\ is_numeric_dtype s = true /\ series_name s <> x) ->
  exists before s after,
    df = (before ++ s :: after)%list
    /\ is_numeric_dtype s = true /\ series_name s <> x
    /\ Forall (fun r => is_numeric_dtype r = false \/ series_name r = x) before
    /\ numeric_cols df x = series_name s :: numeric_cols after x.
Proof.
  intros (s0 & Hin & Hnum & Hne).
  set (f := fun s => is_numeric_dtype s && negb (String.eqb (series_name s) x)).
  destruct (find f df) as [s|] eqn:Hfind.
  - destruct (find_split f df s Hfind) as (before & after & -> & Hfs & Hbefore).
    exists before, s, after. unfold f in Hfs.
    apply andb_true_iff in Hfs as [Hs Hsx].
    apply negb_true_iff, String.eqb_neq in Hsx.
    split; [reflexivity|]. split; [assumption|]. split; [assumption|].
    split.
    + eapply Forall_impl; [exact Hbefore|]. intros r Hr. unfold f in Hr.
      apply andb_false_iff in Hr as [Hr|Hr]; [left; assumption|].
      right. apply negb_false_iff, String.eqb_eq in Hr. assumption.
    + unfold numeric_cols, columns, DataFrame. rewrite filter_app, filter_cons.
      assert (Hnone : filter (fun s => f s = true) before = []).
      { clear -Hbefore. induction Hbefore as [|r l Hr _ IH]; [reflexivity|].
        rewrite filter_cons. case_decide; [congruence | assumption]. }
      unfold f in Hnone. rewrite Hnone. simpl.
      case_decide as Hp; [reflexivity|].
      exfalso. apply Hp. rewrite Hs. simpl.
      apply negb_true_iff, String.eqb_neq. assumption.
  - apply find_none_all in Hfind. rewrite Forall_forall in Hfind.
    apply list_elem_of_In in Hin. apply Hfind in Hin. unfold f in Hin.
    rewrite Hnum in Hin. simpl in Hin.
    apply negb_false_iff, String.eqb_eq in Hin. contradiction.
Qed.

Lemma numeric_cols_single s : numeric_cols [s] (series_name s) = [].
Proof.
  unfold numeric_cols, DataFrame. rewrite filter_cons, filter_nil.
  case_decide as Hp; [|reflexivity].
  rewrite String.eqb_refl, andb_false_r in Hp. discriminate.
Qed.

Section AnyPandas.
Context {pandas : Pandas} {runtime : Runtime}.

(** After a successful parse every supported chart type is drawn. *)
Lemma plot_table_supported text t chart_type :
  parse text = Ok t -> supported_chart_type chart_type = true ->
  exists saved, plot_table text chart_type = Ok saved.
Proof.
  intros Hp Hs. unfold plot_table. rewrite Hp. simpl.
  destruct (parse_columns _ _ Hp) as [Hx Hy].
  destruct (get_series_in _ _ Hx) as [sx Hsx].
  destruct (get_series_in _ _ Hy) as [sy Hsy].
  unfold render, draw. unfold supported_chart_type in Hs.
  destruct (String.eqb chart_type "line"); [rewrite Hsx, Hsy; simpl; eauto|].
  destruct (String.eqb chart_type "bar"); [rewrite Hsx, Hsy; simpl; eauto|].
  destruct (String.eqb chart_type "scatter"); [rewrite Hsx, Hsy; simpl; eauto|].
  discriminate.
Qed.

Lemma parse_read text t :
  parse text = Ok t ->
  exists df, read_frame (Py.strip text) = Some df
             /\ choose_x df = Ok (x_col t)
             /\ first_y df (x_col t) = Some (y_col t)
             /\ frame t = parse_dates df (x_col t).
Proof.
  unfold parse. destruct (negb _); [discriminate|].
  destruct (read_frame _) as [df|]; [|discriminate].
  destruct (choose_x df) as [x|] eqn:Hx; [|discriminate].
  simpl. rewrite choose_y_first_y.
  destruct (first_y df x) as [y|] eqn:Hy; [|discriminate].
  simpl. intros [= <-]. exists df. simpl. auto.
Qed.

(** X6. A table_text that is empty or consists of blanks only is refused with
    the "table_text is empty" error, whatever the chart type and whatever
    pandas would have made of it. *)
Theorem blank_table_text_is_refused text chart_type :
  nonblank text = false ->
  plot_table text chart_type = Raise (ValueError empty_msg).
Proof.
  intros Hblank. unfold plot_table, parse.
  rewrite strip_truthy, Hblank. reflexivity.
Qed.

(** X7. Blanks around the table do not matter: the text and the stripped text
    parse and plot alike. *)
Theorem surrounding_blanks_are_ignored text chart_type :
  parse (Py.strip text) = parse text
  /\ plot_table (Py.strip text) chart_type = plot_table text chart_type.
Proof.
  assert (Hparse : parse (Py.strip text) = parse text).
  { unfold parse, Py.strip. rewrite strip_by_idempotent. reflexivity. }
  split; [exact Hparse|]. unfold plot_table. rewrite Hparse. reflexivity.
Qed.

(** X8. A table of a single column is always refused with the "No numeric
    column" error, even when that column is numeric: the only column is
    the x-column, and y must be another one. *)
Theorem single_column_is_refused text s chart_type :
  nonblank text = true ->
  read_frame (Py.strip text) = Some [s] ->
  parse text = Raise (ValueError no_numeric_msg)
  /\ plot_table text chart_type = Raise (ValueError no_numeric_msg).
Proof.
  intros Hnb Hread.
  assert (Hparse : parse text = Raise (ValueError no_numeric_msg)).
  { unfold parse. rewrite strip_truthy, Hnb, Hread. simpl.
    assert (Hx : choose_x [s] = Ok (series_name s)).
    { unfold choose_x. simpl. destruct (is_time_name (series_name s)); reflexivity. }
    rewrite Hx. simpl. rewrite choose_y_first_y.
    unfold first_y. rewrite numeric_cols_single. reflexivity. }
  split; [exact Hparse|]. unfold plot_table. rewrite Hparse. reflexivity.
Qed.

(** X9. When the frame has a numeric column other than x, y is the first
    of them in the order of the frame: every column that stands before
    y is either not numeric or is x itself. The frame is left as it was
    read. *)
Theorem first_numeric_column_is_y df x :
  (exists s, In s df /\ is_numeric_dtype s = true /\ series_name s <> x) ->
  exists before s after,
    df = (before ++ s :: after)%list
    /\ is_numeric_dtype s = true /\ series_name s <> x
    /\ Forall (fun r => is_numeric_dtype r = false \/ series_name r = x) before
    /\ choose_y df x = Ok (df, series_name s).
Proof.
  intros Hsome.
  destruct (numeric_cols_first df x Hsome)
    as (before & s & after & Hdf & Hs & Hsx & Hbefore & Hcols).
  exists before, s, after. repeat (split; [assumption|]).
  rewrite choose_y_first_y. unfold first_y. rewrite Hcols. reflexivity.
Qed.

(** X10. The x-column is the first column whose name is time-like, and the
    first column when no name is; the choice fails, with an index error,
    for a frame without columns only. *)
Theorem x_column_is_first_time_like_else_first df :
  match choose_x df with
  | Ok x =>
      exists before after,
        columns df = (before ++ x :: after)%list
        /\ Forall (fun c => is_time_name c = false) before
        /\ (is_time_name x = true
            \/ (before = [] /\ Forall (fun c => is_time_name c = false) after
                /\ is_time_name x = false))
  | Raise e => e = IndexError /\ df = []
  end.
Proof.
  unfold choose_x. destruct (find _ (columns df)) as [x|] eqn:Hf.
  - destruct (find_split _ _ _ Hf) as (b & a & Hsplit & Hx & Hb).
    exists b, a. auto.
  - pose proof (find_none_all _ _ Hf) as Hall. clear Hf.
    unfold DataFrame in df.
    destruct df as [|s rest]; [split; reflexivity|].
    simpl in Hall. simpl.
    exists [], (columns rest). inversion Hall; subst.
    split; [reflexivity|]. split; [constructor|]. right. auto.
Qed.

(** X11. A parsed table has the columns that were read, in the same order:
    choosing the axes and parsing the dates neither add, drop nor rename a
    column; and both chosen columns are among them. *)
Theorem parsed_table_keeps_the_columns text t :
  parse text = Ok t ->
  exists df,
    read_frame (Py.strip text) = Some df
    /\ columns (frame t) = columns df
    /\ In (x_col t) (columns df) /\ In (y_col t) (columns df).
Proof.
  intros Hp. destruct (parse_read _ _ Hp) as (df & Hread & Hx & Hy & Hframe).
  exists df. split; [assumption|].
  rewrite Hframe, columns_parse_dates. split; [reflexivity|].
  split; [apply choose_x_in; assumption | eapply first_y_in; eassumption].
Qed.

(** X12. [plot_table] raises nothing but its own four value errors (empty,
    unparseable, no numeric column, unsupported chart type) and, for a
    frame without columns, the index error of [df.columns[0]]; a missing
    column is never looked up. *)
Theorem plot_table_raises_its_own_errors text chart_type e :
  plot_table text chart_type = Raise e -> plot_table_error chart_type e.
Proof.
  unfold plot_table, plot_table_error.
  destruct (parse text) as [t|e'] eqn:Hp.
  - simpl. destruct (supported_chart_type chart_type) eqn:Hs.
    + destruct (plot_table_supported _ _ _ Hp Hs) as [saved Hsaved].
      unfold plot_table in Hsaved. rewrite Hp in Hsaved. simpl in Hsaved.
      rewrite Hsaved. discriminate.
    + unfold supported_chart_type in Hs.
      apply orb_false_iff in Hs as [Hs E3]. apply orb_false_iff in Hs as [E1 E2].
      unfold render, draw. rewrite E1, E2, E3. simpl. intros [= <-]. tauto.
  - simpl. intros [= <-]. revert Hp. unfold parse.
    destruct (negb _); [intros [= <-]; tauto|].
    destruct (read_frame _) as [df|]; [|intros [= <-]; tauto].
    destruct (choose_x df) as [x|ex] eqn:Hx.
    + simpl. rewrite choose_y_first_y.
      destruct (first_y df x); simpl; [discriminate|]. intros [= <-]. tauto.
    + simpl. intros [= <-]. revert Hx. unfold choose_x.
      destruct (find _ _); [discriminate|].
      destruct (columns df); [|discriminate]. intros [= <-]. tauto.
Qed.

End AnyPandas.

(** X13. The conversion of the second column to numbers is never consulted:
    two pandas that read and parse dates alike give the same parse, however
    their numeric conversions differ. *)
Theorem parse_never_converts_to_numeric (p1 p2 : Pandas) text :
  (forall sep t, @read_csv p1 sep t = @read_csv p2 sep t) ->
  (forall s, @to_datetime_ignore p1 s = @to_datetime_ignore p2 s) ->
  @parse p1 text = @parse p2 text.
Proof.
  intros Hread Hdate. unfold parse, read_frame. rewrite !Hread.
  destruct (negb _); [reflexivity|].
  match goal with |- context [match ?d with Some _ => _ | None => _ end] =>
    destruct d as [df|] end; [|reflexivity].
  destruct (choose_x df) as [x|]; [|reflexivity]. simpl.
  rewrite !choose_y_first_y. destruct (first_y df x); [|reflexivity]. simpl.
  unfold parse_dates. destruct (get_series df x) as [sx|]; [|reflexivity].
  rewrite Hdate. reflexivity.
Qed.

Lemma blank_table_text_is_refused_witness :
  @plot_table plain_pandas fixed_runtime blank_text "pie"
  = Raise (ValueError empty_msg).
Proof.
  apply (@blank_table_text_is_refused plain_pandas fixed_runtime blank_text "pie").
  vm_compute. reflexivity.
Defined.

Lemma single_column_is_refused_witness :
  @parse plain_pandas single_numeric_column = Raise (ValueError no_numeric_msg)
  /\ @plot_table plain_pandas fixed_runtime single_numeric_column "line"
     = Raise (ValueError no_numeric_msg).
Proof.
  apply (@single_column_is_refused plain_pandas fixed_runtime single_numeric_column
           {| series_name := "value"; dtype := int64; cells := ["1"; "2"] |} "line").
  - vm_compute. reflexivity.
  - vm_compute. reflexivity.
Defined.

Lemma first_numeric_column_is_y_witness :
  exists before s after,
    yearly_figures = (before ++ s :: after)%list
    /\ is_numeric_dtype s = true /\ series_name s <> "year"
    /\ Forall (fun r => is_numeric_dtype r = false \/ series_name r = "year") before
    /\ @choose_y plain_pandas yearly_figures "year" = Ok (yearly_figures, series_name s).
Proof.
  apply (@first_numeric_column_is_y plain_pandas yearly_figures "year").
  exists {| series_name := "profit"; dtype := float64; cells := ["10.5"; "20.5"] |}.
  split; [simpl; tauto|]. split; [reflexivity | discriminate].
Defined.

Lemma parsed_table_keeps_the_columns_witness :
  exists df,
    @read_frame plain_pandas (Py.strip padded_csv_table) = Some df
    /\ columns [ {| series_name := "year"; dtype := int64; cells := ["2020"; "2021"] |};
                 {| series_name := "revenue"; dtype := int64; cells := ["100"; "200"] |} ]
       = columns df
    /\ In "year" (columns df) /\ In "revenue" (columns df).
Proof.
  apply (@parsed_table_keeps_the_columns plain_pandas padded_csv_table
           {| frame := [ {| series_name := "year"; dtype := int64;
                            cells := ["2020"; "2021"] |};
                         {| series_name := "revenue"; dtype := int64;
                            cells := ["100"; "200"] |} ];
              x_col := "year"; y_col := "revenue" |}).
  vm_compute. reflexivity.
Defined.

Lemma plot_table_raises_its_own_errors_witness :
  plot_table_error "pie" (ValueError "plot_table: Unsupported chart_type: pie").
Proof.
  apply (@plot_table_raises_its_own_errors plain_pandas fixed_runtime csv_table "pie").
  vm_compute. reflexivity.
Defined.

Lemma parse_never_converts_to_numeric_witness :
  @parse plain_pandas names_cities = @parse strict_pandas names_cities.
Proof.
  apply (parse_never_converts_to_numeric plain_pandas strict_pandas names_cities);
    reflexivity.
Defined.

End PlotMore.

(** ** nodes.py, and what main.py reports of its output *)

Module NodesMore.
Import Helpers Visualization Search Routing Nodes Graph Main.
Import Statements MoreStatements Fixtures MoreFixtures.
Import PyFacts HelpersFacts PlotFacts RoutingFacts NodesFacts GraphFacts HelpersMore PlotMore.

Lemma guarded_chart_kind_supported text :
  supported_chart_type (guarded_chart_kind text) = true.
Proof.
  unfold guarded_chart_kind.
  destruct (_ || _); [reflexivity|]. destruct (Py.contains "scatter" text); reflexivity.
Qed.

Lemma leaves_of_messages l : flat_map leaves (map RMsg l) = map RMsg l.
Proof. induction l as [|m l IH]; simpl; [reflexivity | rewrite IH; reflexivity]. Qed.

(** A closing assistant message with non-blank text is the one found. *)
Lemma last_nonempty_closing msgs content :
  nonblank (content_text content) = true ->
  last_nonempty_ai_message (map RMsg (msgs ++ [AIMessage content []]))
  = Some (AIMessage content []).
Proof.
  intros Hnb. rewrite last_nonempty_fold, leaves_of_messages, map_app, fold_left_app.
  simpl. rewrite strip_truthy, Hnb. reflexivity.
Qed.

Lemma plotted_text_nonblank kind path :
  nonblank ("Automatically plotted table as a " +:+ kind +:+
            " chart. File saved at: " +:+ path) = true.
Proof. rewrite nonblank_app. reflexivity. Qed.

Lemma failed_text_nonblank msg :
  nonblank ("Failed to auto-plot the table: " +:+ msg) = true.
Proof. rewrite nonblank_app. reflexivity. Qed.

Section AnyModel.
Context {chat : ChatModel} {pandas : Pandas} {runtime : Runtime} {uuid : Uuid}.

(** X14. The auto-plot never fails on the chart type: the kind it reads off a
    text answer is always one of line, bar and scatter, so it plots
    whenever table_text parses, and otherwise reports the parse error. *)
Theorem auto_plot_fails_only_when_parsing_fails s t :
  supported_chart_type (guarded_chart_kind (Py.lower s)) = true
  /\ match parse t with
     | Ok _ =>
         exists path,
           auto_plot (CStr s) t =
           [ToolMessage uuid4_str "plot_table" (CStr path);
            AIMessage
              (CStr ("Automatically plotted table as a " +:+
                     guarded_chart_kind (Py.lower s) +:+
                     " chart. File saved at: " +:+ path)) []]
     | Raise e =>
         auto_plot (CStr s) t =
         [AIMessage (CStr ("Failed to auto-plot the table: " +:+ exn_str e)) []]
     end.
Proof.
  split; [apply guarded_chart_kind_supported|].
  unfold auto_plot. rewrite chart_type_of_string. simpl.
  destruct (parse t) as [tbl|e] eqn:Hp.
  - destruct (plot_table_supported t tbl _ Hp
                (guarded_chart_kind_supported (Py.lower s))) as [saved Hs].
    rewrite Hs. simpl. eauto.
  - unfold plot_table. rewrite Hp. reflexivity.
Qed.

(** X15. After the visualize step the router looks at a message without tool
    calls unless the model itself asked for a tool: the step's output
    starts with the model's message, nothing after it carries a tool
    call, and the route is "tools" exactly when the model asked, else the
    end. *)
Theorem visualizer_route_follows_the_model state :
  route_from_visualizer (add_messages state (visualizer_agent state))
  = (if requests_tool (ai_message visualizer_runnable state)
     then Ok "tools" else Ok END)
  /\ hd_error (visualizer_agent state) = Some (ai_message visualizer_runnable state)
  /\ Forall (fun m => requests_tool m = false) (tl (visualizer_agent state)).
Proof.
  split.
  { rewrite route_from_visualizer_reads, last_requests_tool_visualizer.
    destruct (requests_tool _); reflexivity. }
  unfold visualizer_agent, ai_message.
  destruct (invoke_runnable visualizer_runnable (messages state)) as [content tcs].
  destruct tcs as [|tc tcs]; [|split; [reflexivity | constructor]].
  destruct (table_text state) as [t|]; [|split; [reflexivity | constructor]].
  destruct (Py.truthy t); [|split; [reflexivity | constructor]].
  split; [reflexivity|]. simpl. unfold auto_plot.
  destruct (chart_type_of_content content ≫= _) as [[kind path]|e];
    repeat constructor.
Qed.

(** X16. What main.py prints after an auto-plot: the final output is the
    follow-up message of the visualizer (the plot notice, or the failure
    notice with the error text), and the plot report gains exactly the
    saved path on success and nothing on failure. *)
Theorem report_after_auto_plot state s t :
  invoke_runnable visualizer_runnable (messages state) = (CStr s, []) ->
  table_text state = Some t ->
  Py.truthy t = true ->
  match plot_table t (guarded_chart_kind (Py.lower s)) with
  | Ok saved =>
      final_output (add_messages state (visualizer_agent state))
      = CStr ("Automatically plotted table as a " +:+
              guarded_chart_kind (Py.lower s) +:+
              " chart. File saved at: " +:+ out_path saved)
      /\ plots_produced (add_messages state (visualizer_agent state))
         = (plots_produced state ++ [CStr (out_path saved)])%list
  | Raise e =>
      final_output (add_messages state (visualizer_agent state))
      = CStr ("Failed to auto-plot the table: " +:+ exn_str e)
      /\ plots_produced (add_messages state (visualizer_agent state))
         = plots_produced state
  end.
Proof.
  intros Hai Ht Htruthy.
  unfold visualizer_agent. rewrite Hai, Ht, Htruthy.
  unfold auto_plot. rewrite chart_type_of_string. simpl.
  destruct (plot_table t (guarded_chart_kind (Py.lower s))) as [saved|e]; simpl.
  - split.
    + unfold final_output, add_messages. simpl.
      change (messages state ++
                [AIMessage (CStr s) [];
                 ToolMessage uuid4_str "plot_table" (CStr (out_path saved));
                 AIMessage
                   (CStr ("Automatically plotted table as a " +:+
                          guarded_chart_kind (Py.lower s) +:+
                          " chart. File saved at: " +:+ out_path saved)) []])%list
        with (messages state ++
                ([AIMessage (CStr s) [];
                  ToolMessage uuid4_str "plot_table" (CStr (out_path saved))] ++
                 [AIMessage
                    (CStr ("Automatically plotted table as a " +:+
                           guarded_chart_kind (Py.lower s) +:+
                           " chart. File saved at: " +:+ out_path saved)) []]))%list.
      rewrite app_assoc, last_nonempty_closing; [reflexivity|].
      apply plotted_text_nonblank.
    + unfold plots_produced, add_messages. simpl. rewrite omap_app. reflexivity.
  - split.
    + unfold final_output, add_messages. simpl.
      change (messages state ++
                [AIMessage (CStr s) [];
                 AIMessage (CStr ("Failed to auto-plot the table: " +:+ exn_str e)) []])%list
        with (messages state ++
                ([AIMessage (CStr s) []] ++
                 [AIMessage (CStr ("Failed to auto-plot the table: " +:+ exn_str e)) []]))%list.
      rewrite app_assoc, last_nonempty_closing; [reflexivity|].
      apply failed_text_nonblank.
    + unfold plots_produced, add_messages. simpl. rewrite omap_app. simpl.
      rewrite app_nil_r. reflexivity.
Qed.

End AnyModel.

Lemma report_after_auto_plot_witness :
  final_output
    (add_messages (input None (Some csv_table))
       (@visualizer_agent bar_chart_chat plain_pandas fixed_runtime fixed_uuid
          (input None (Some csv_table))))
  = CStr ("Automatically plotted table as a bar chart. " +:+
          "File saved at: outputs/plot_20240101120000_012345.png")
  /\ plots_produced
       (add_messages (input None (Some csv_table))
          (@visualizer_agent bar_chart_chat plain_pandas fixed_runtime fixed_uuid
             (input None (Some csv_table))))
     = [CStr "outputs/plot_20240101120000_012345.png"].
Proof.
  pose proof (@report_after_auto_plot bar_chart_chat plain_pandas fixed_runtime
                fixed_uuid (input None (Some csv_table))
                "A Bar Chart of revenue per year fits best." csv_table
                eq_refl eq_refl eq_refl) as Hreport.
  replace (@plot_table plain_pandas fixed_runtime csv_table
             (guarded_chart_kind (Py.lower "A Bar Chart of revenue per year fits best.")))
    with (@plot_table plain_pandas fixed_runtime csv_table "bar") in Hreport
    by (vm_compute; reflexivity).
  destruct (@plot_table plain_pandas fixed_runtime csv_table "bar") as [saved|e] eqn:Hplot;
    [|vm_compute in Hplot; discriminate].
  assert (Hpath : out_path saved = "outputs/plot_20240101120000_012345.png")
    by (vm_compute in Hplot; injection Hplot as <-; reflexivity).
  rewrite Hpath in Hreport. destruct Hreport as [Hfinal Hplots].
  split; [rewrite Hfinal; vm_compute; reflexivity | exact Hplots].
Defined.

End NodesMore.

(** ** graph.py: further properties of the runs *)

Module GraphMore.
Import Visualization Search Routing Nodes Graph.
Import Statements MoreStatements Fixtures MoreFixtures.
Import RoutingFacts GraphFacts.

(** *** Any graph *)

Lemma steps_within_budget g b : forall node state,
  length (steps (run_from g b node state)) <= b
  /\ (status (run_from g b node state) = RecursionLimit ->
      length (steps (run_from g b node state)) = b).
Proof.
  induction b as [|b IH]; intros node state.
  - rewrite run_out_of_budget. destruct (String.eqb node END); simpl; auto.
  - rewrite run_from_S. destruct (String.eqb node END);
      [simpl; split; [lia | discriminate]|].
    destruct (nodes g !! node) as [f|]; [|simpl; split; [lia | discriminate]].
    destruct (f state) as [new|e]; [|simpl; split; [lia | discriminate]].
    destruct (next_node g node (add_messages state new)) as [dst|e];
      [|simpl; split; [lia | discriminate]].
    destruct (IH dst (add_messages state new)) as [Hle Hlim].
    unfold steps, logged in *. simpl. split; [lia|].
    intros Hs. rewrite (Hlim Hs). reflexivity.
Qed.

(** A run never takes more steps than it is allowed, and one that stops
    on the limit has taken exactly that many. *)
Lemma run_stays_within_the_limit g limit input :
  length (steps (invoke g limit input)) <= limit
  /\ (status (invoke g limit input) = RecursionLimit ->
      length (steps (invoke g limit input)) = limit).
Proof.
  unfold invoke. destruct (edges g !! START) as [entry|].
  - apply steps_within_budget.
  - simpl. split; [lia | discriminate].
Qed.


Section AnyModel.
Context {chat : ChatModel} {pandas : Pandas} {runtime : Runtime}
        {uuid : Uuid} {tavily : Tavily} {texts : ToolNodeTexts}.

(** *** Summary mode *)

Lemma summary_mode_steps b : forall node state,
  get_mode state = "summary" ->
  node = "researcher_agent" \/ node = "tools" \/ node = "summarizer_agent" ->
  Forall (fun n => n = "researcher_agent" \/ n = "tools" \/ n = "summarizer_agent")
         (steps (run_from create_graph b node state)).
Proof.
  induction b as [|b IH]; intros node state Hmode Hnode.
  - rewrite run_out_of_budget. destruct (String.eqb node END); constructor.
  - destruct Hnode as [-> | [-> | ->]].
    + rewrite run_researcher, Hmode.
      change (String.eqb "summary" "research") with false.
      unfold steps, logged. simpl. constructor; [tauto|].
      destruct (requests_tool _); apply IH; auto.
    + rewrite run_tools. destruct (tools_node state) as [new|e];
        [|repeat constructor; tauto].
      unfold steps, logged. simpl. constructor; [tauto|]. apply IH; auto.
    + rewrite run_summarizer, Hmode.
      change (String.eqb "summary" "summary") with true.
      destruct (requests_tool _); repeat constructor; tauto.
Qed.

(** X18. In summary mode the Visualize step never runs: the steps of a run are
    Plan, Research, Tool and Summarize only, and no message of the final
    state is authored by Visualize. *)
Theorem summary_mode_skips_visualizer limit input :
  mode input = Some "summary" ->
  (forall n, In n (steps (invoke create_graph limit input)) ->
     n = "planner_agent" \/ n = "researcher_agent" \/ n = "tools"
     \/ n = "summarizer_agent")
  /\ authored_by "visualizer_agent" (invoke create_graph limit input) = [].
Proof.
  intros Hmode.
  assert (Hsteps : forall n, In n (steps (invoke create_graph limit input)) ->
            n = "planner_agent" \/ n = "researcher_agent" \/ n = "tools"
            \/ n = "summarizer_agent").
  { rewrite entry_point. destruct limit as [|b].
    - simpl. tauto.
    - rewrite run_planner. unfold steps, logged. simpl.
      intros n [<-|Hn]; [tauto|]. right.
      pose proof (summary_mode_steps b "researcher_agent"
                    (add_messages input (planner_agent input))) as Hall.
      rewrite Forall_forall in Hall. apply Hall.
      + unfold get_mode. simpl. rewrite Hmode. reflexivity.
      + tauto.
      + apply list_elem_of_In. exact Hn. }
  split; [exact Hsteps|].
  apply authored_by_absent. intros Hin. apply Hsteps in Hin.
  destruct Hin as [?|[?|[?|?]]]; discriminate.
Qed.

(** *** Which modes matter *)

Lemma ai_message_messages r s1 s2 :
  messages s1 = messages s2 -> ai_message r s1 = ai_message r s2.
Proof. intros Hm. unfold ai_message. rewrite Hm. reflexivity. Qed.

Lemma routing_view_add s1 s2 new :
  routing_view s1 s2 -> routing_view (add_messages s1 new) (add_messages s2 new).
Proof.
  intros (Hm & Ht & Hr & Hs). unfold routing_view, add_messages, get_mode in *.
  simpl. rewrite Hm. auto.
Qed.

Lemma tools_node_messages s1 s2 :
  messages s1 = messages s2 -> tools_node s1 = tools_node s2.
Proof. intros Hm. unfold tools_node. rewrite Hm. reflexivity. Qed.

Lemma run_routing_view b : forall node s1 s2,
  routing_view s1 s2 ->
  status (run_from create_graph b node s1) = status (run_from create_graph b node s2)
  /\ log (run_from create_graph b node s1) = log (run_from create_graph b node s2)
  /\ routing_view (final (run_from create_graph b node s1))
                  (final (run_from create_graph b node s2)).
Proof.
  induction b as [|b IH]; intros node s1 s2 Hv.
  - rewrite !run_out_of_budget. destruct (String.eqb node END); simpl; auto.
  - pose proof Hv as (Hm & Ht & Hres & Hsum).
    destruct (node_cases node) as [->|[->|[->|[->|[->|[->|[Hn Hnone]]]]]]].
    + rewrite !run_from_END. simpl. auto.
    + rewrite !run_tools, (tools_node_messages _ _ Hm).
      destruct (tools_node s2) as [new|e]; [|simpl; auto].
      destruct (IH "researcher_agent" _ _ (routing_view_add _ _ new Hv))
        as (Ha & Hb & Hc).
      simpl. split; [exact Ha|]. split; [f_equal; exact Hb | exact Hc].
    + rewrite !run_visualizer. unfold visualizer_agent, ai_message. rewrite Hm, Ht.
      destruct (invoke_runnable visualizer_runnable (messages s2)) as [c tcs].
      destruct (requests_tool _); [simpl; auto|].
      match goal with |- context [logged _ ?new _] =>
        pose proof (routing_view_add _ _ new Hv) as Hv' end.
      simpl. auto.
    + rewrite !run_summarizer. unfold summarizer_agent.
      rewrite (ai_message_messages _ _ _ Hm), Hsum.
      pose proof (routing_view_add _ _ [ai_message summarizer_runnable s2] Hv) as Hv'.
      destruct (requests_tool _); [simpl; auto|].
      destruct (String.eqb (get_mode s2) "summary"); [simpl; auto|].
      destruct (IH "visualizer_agent" _ _ Hv') as (Ha & Hb & Hc).
      simpl. split; [exact Ha|]. split; [f_equal; exact Hb | exact Hc].
    + rewrite !run_researcher. unfold researcher_agent.
      rewrite (ai_message_messages _ _ _ Hm), Hres.
      pose proof (routing_view_add _ _ [ai_message researcher_runnable s2] Hv) as Hv'.
      destruct (requests_tool _).
      * destruct (IH "tools" _ _ Hv') as (Ha & Hb & Hc).
        simpl. split; [exact Ha|]. split; [f_equal; exact Hb | exact Hc].
      * destruct (String.eqb (get_mode s2) "research"); [simpl; auto|].
        destruct (IH "summarizer_agent" _ _ Hv') as (Ha & Hb & Hc).
        simpl. split; [exact Ha|]. split; [f_equal; exact Hb | exact Hc].
    + rewrite !run_planner. unfold planner_agent.
      rewrite (ai_message_messages _ _ _ Hm).
      pose proof (routing_view_add _ _ [ai_message planner_runnable s2] Hv) as Hv'.
      destruct (IH "researcher_agent" _ _ Hv') as (Ha & Hb & Hc).
      simpl. split; [exact Ha|]. split; [f_equal; exact Hb | exact Hc].
    + rewrite !run_unknown by assumption. simpl. auto.
Qed.

(** X19. Only the modes research and summary matter: two inputs with the same
    messages and table_text whose modes agree on being research and on
    being summary run alike, step by step; so the mode visualize, or any
    unknown mode, runs as full. *)
Theorem only_research_and_summary_modes_matter limit s1 s2 :
  routing_view s1 s2 ->
  status (invoke create_graph limit s1) = status (invoke create_graph limit s2)
  /\ log (invoke create_graph limit s1) = log (invoke create_graph limit s2)
  /\ messages (final (invoke create_graph limit s1))
     = messages (final (invoke create_graph limit s2)).
Proof.
  intros Hv. rewrite !entry_point.
  destruct (run_routing_view limit "planner_agent" s1 s2 Hv) as (Ha & Hb & Hc & _).
  auto.
Qed.

(** *** The shape of a run *)

Lemma steps_from_visualizer b state :
  steps (run_from create_graph b "visualizer_agent" state) = []
  \/ steps (run_from create_graph b "visualizer_agent" state) = ["visualizer_agent"].
Proof.
  destruct b as [|b]; [left; reflexivity|]. right.
  rewrite run_visualizer. destruct (requests_tool _); reflexivity.
Qed.

Lemma steps_from_summarizer b state :
  closing_steps (steps (run_from create_graph b "summarizer_agent" state)).
Proof.
  unfold closing_steps. destruct b as [|b]; [left; reflexivity|]. right.
  rewrite run_summarizer. destruct (requests_tool _); [left; reflexivity|].
  destruct (String.eqb _ _); [left; reflexivity|].
  unfold steps, logged. simpl.
  destruct (steps_from_visualizer b
              (add_messages state (summarizer_agent state))) as [H|H];
    unfold steps in H; rewrite H; auto.
Qed.

Lemma steps_from_research_loop b : forall node state,
  node = "researcher_agent" \/ node = "tools" ->
  exists loop closing,
    steps (run_from create_graph b node state) = (loop ++ closing)%list
    /\ research_loop loop /\ closing_steps closing.
Proof.
  induction b as [|b IH]; intros node state Hnode.
  - exists [], []. rewrite run_out_of_budget.
    destruct (String.eqb node END); (split; [reflexivity|]);
      (split; [constructor | left; reflexivity]).
  - destruct Hnode as [-> | ->].
    + rewrite run_researcher. destruct (requests_tool _).
      * destruct (IH "tools" (add_messages state (researcher_agent state)))
          as (loop & closing & Hs & Hl & Hc); [tauto|].
        exists ("researcher_agent" :: loop), closing.
        unfold steps, logged in *. simpl. rewrite Hs.
        split; [reflexivity|]. split; [constructor; [tauto | exact Hl] | exact Hc].
      * destruct (String.eqb _ _).
        -- exists ["researcher_agent"], []. split; [reflexivity|].
           split; [repeat constructor; tauto | left; reflexivity].
        -- exists ["researcher_agent"],
             (steps (run_from create_graph b "summarizer_agent"
                       (add_messages state (researcher_agent state)))).
           split; [reflexivity|].
           split; [repeat constructor; tauto | apply steps_from_summarizer].
    + rewrite run_tools. destruct (tools_node state) as [new|e].
      * destruct (IH "researcher_agent" (add_messages state new))
          as (loop & closing & Hs & Hl & Hc); [tauto|].
        exists ("tools" :: loop), closing.
        unfold steps, logged in *. simpl. rewrite Hs.
        split; [reflexivity|]. split; [constructor; [tauto | exact Hl] | exact Hc].
      * exists ["tools"], []. split; [reflexivity|].
        split; [repeat constructor; tauto | left; reflexivity].
Qed.

(** X20. Every run has the same shape: the Plan step once, then Research and
    Tool steps only, then at most one Summarize step followed by at most
    one Visualize step. Plan, Summarize and Visualize never run twice and
    nothing runs after Visualize. *)
Theorem run_shape limit input :
  steps (invoke create_graph limit input) = []
  \/ exists loop closing,
       steps (invoke create_graph limit input)
       = ("planner_agent" :: loop ++ closing)%list
       /\ research_loop loop /\ closing_steps closing.
Proof.
  rewrite entry_point. destruct limit as [|b]; [left; reflexivity|]. right.
  rewrite run_planner.
  destruct (steps_from_research_loop b "researcher_agent"
              (add_messages input (planner_agent input)))
    as (loop & closing & Hs & Hl & Hc); [tauto|].
  exists loop, closing. unfold steps, logged in *. simpl. rewrite Hs. auto.
Qed.

(** *** How a run can fail *)









(** X22. A tool request of the Summarize or of the Visualize step stops
    the run at that step: the router answers "tools", the step's path
    map holds no such label, and the run fails with the key error on
    "tools" with that step as its only step; the Tool step does not run.
    The Visualize step has made no plot by then: what it returns is the
    model's message alone. *)
Theorem unrouted_tool_request_stops_the_run b state :
  (requests_tool (ai_message summarizer_runnable state) = true ->
   route_from_summarizer (add_messages state (summarizer_agent state)) = Ok "tools"
   /\ next_node create_graph "summarizer_agent"
        (add_messages state (summarizer_agent state)) = Raise (KeyError "tools")
   /\ status (run_from create_graph (S b) "summarizer_agent" state)
      = Failed (KeyError "tools")
   /\ steps (run_from create_graph (S b) "summarizer_agent" state)
      = ["summarizer_agent"])
  /\ (requests_tool (ai_message visualizer_runnable state) = true ->
      visualizer_agent state = [ai_message visualizer_runnable state]
      /\ route_from_visualizer (add_messages state (visualizer_agent state)) = Ok "tools"
      /\ next_node create_graph "visualizer_agent"
           (add_messages state (visualizer_agent state)) = Raise (KeyError "tools")
      /\ status (run_from create_graph (S b) "visualizer_agent" state)
         = Failed (KeyError "tools")
      /\ steps (run_from create_graph (S b) "visualizer_agent" state)
         = ["visualizer_agent"]).
Proof.
  split; intros Hreq.
  - rewrite run_summarizer, next_node_summarizer, route_from_summarizer_reads.
    unfold summarizer_agent. rewrite last_requests_tool_ai, Hreq.
    repeat split; reflexivity.
  - rewrite run_visualizer, next_node_visualizer, route_from_visualizer_reads.
    rewrite last_requests_tool_visualizer, Hreq.
    split; [|repeat split; reflexivity].
    revert Hreq. unfold visualizer_agent, ai_message.
    destruct (invoke_runnable visualizer_runnable (messages state)) as [c tcs].
    destruct tcs; [discriminate | reflexivity].
Qed.

(** *** The graph is closed *)

Lemma registered_node n :
  n = "tools" \/ n = "visualizer_agent" \/ n = "summarizer_agent" \/
  n = "researcher_agent" \/ n = "planner_agent" ->
  is_Some (nodes create_graph !! n).
Proof.
  rewrite nodes_create_graph.
  intros [->|[->|[->|[->| ->]]]]; repeat (case_decide; [eauto|]); congruence.
Qed.

(** X23. Every edge of the graph leads to a registered node and starts at the
    entry point or at a registered node; every conditional edge starts at
    a registered node and every destination in its path map is the end or
    a registered node. *)
Theorem graph_destinations_are_nodes :
  (forall src dst, edges create_graph !! src = Some dst ->
     is_Some (nodes create_graph !! dst)
     /\ (src = START \/ is_Some (nodes create_graph !! src)))
  /\ (forall src path path_map label dst,
        branches create_graph !! src = Some (path, path_map) ->
        is_Some (nodes create_graph !! src)
        /\ (path_map !! label = Some dst ->
            dst = END \/ is_Some (nodes create_graph !! dst))).
Proof.
  split.
  - intros src dst. unfold create_graph, add_node, add_edge, add_conditional_edges,
      new_graph. simpl. rewrite !lookup_insert_Some, lookup_empty.
    intros [[<- <-]|[_ [[<- <-]|[_ ?]]]]; [| |discriminate].
    + split; [apply registered_node; tauto | right; apply registered_node; tauto].
    + split; [apply registered_node; tauto | tauto].
  - intros src path pm label dst.
    unfold create_graph at 1, add_node, add_edge, add_conditional_edges, new_graph.
    simpl. rewrite !lookup_insert_Some, lookup_empty.
    intros [[<- [= <- <-]]|[_ [[<- [= <- <-]]|[_ [[<- [= <- <-]]
             |[_ [[<- [= <- <-]]|[_ ?]]]]]]]];
      [| | | |discriminate];
      (split; [apply registered_node; tauto|]);
      rewrite !lookup_insert_Some, lookup_empty;
      intros Hd; decompose [and or] Hd; subst; try discriminate;
      solve [left; reflexivity | right; apply registered_node; tauto].
Qed.

End AnyModel.

Lemma summary_mode_skips_visualizer_witness :
  authored_by "visualizer_agent"
    (invoke (graph_with quiet_chat) 25 (input (Some "summary") (Some csv_table))) = [].
Proof.
  apply (@summary_mode_skips_visualizer quiet_chat plain_pandas fixed_runtime
           fixed_uuid no_results short_texts 25%nat (input (Some "summary") (Some csv_table))).
  reflexivity.
Defined.

Lemma only_research_and_summary_modes_matter_witness :
  log (invoke (graph_with bar_chart_chat) 25 (input (Some "visualize") (Some csv_table)))
  = log (invoke (graph_with bar_chart_chat) 25 (input (Some "full") (Some csv_table))).
Proof.
  apply (@only_research_and_summary_modes_matter bar_chart_chat plain_pandas
           fixed_runtime fixed_uuid no_results short_texts 25%nat
           (input (Some "visualize") (Some csv_table))
           (input (Some "full") (Some csv_table))).
  unfold routing_view. split; [reflexivity|]. split; [reflexivity|].
  split; vm_compute; reflexivity.
Defined.


End GraphMore.
